(** * npplib.insert: comment re-wrapping and comment continuation

    A shallow embedding of [src/npplib/insert.py] (with the one helper of
    [src/npplib/common.py] it calls) and the properties of its three entry
    points: the event dispatcher [on_CHARADDED_insert], the re-wrapper
    [_on_CHARADDED_wrap] and the continuation inserter
    [_on_RETURN_insert_comment].

    The script runs under the Python 2 interpreter of the editor plugin:
    a [str] is a sequence of bytes, [len] counts bytes, and the white space
    of [split], [strip], [lstrip] and [rstrip] is the ASCII white space. *)

From Stdlib Require Import List ZArith Ascii String Bool Lia.
Import ListNotations.

Set Implicit Arguments.

(** ** Python strings *)

Definition str := list ascii.

Definition lit (s : string) : str := list_ascii_of_string s.

Definition len {A : Type} (l : list A) : Z := Z.of_nat (List.length l).

Module Py.

(** White space of a Python 2 byte string: space, tab, line feed,
    vertical tab, form feed, carriage return. *)
Definition isspace (c : ascii) : bool :=
  existsb (Ascii.eqb c)
    [" "%char; "009"%char; "010"%char; "011"%char; "012"%char; "013"%char].

Fixpoint str_eqb (a b : str) : bool :=
  match a, b with
  | [], [] => true
  | x :: a', y :: b' => Ascii.eqb x y && str_eqb a' b'
  | _, _ => false
  end.

(** [s.startswith(p)] *)
Fixpoint startswith (s p : str) {struct p} : bool :=
  match p, s with
  | [], _ => true
  | x :: p', y :: s' => Ascii.eqb x y && startswith s' p'
  | _ :: _, [] => false
  end.

(** [s.endswith(p)] *)
Definition endswith (s p : str) : bool := startswith (rev s) (rev p).

(** [s.lstrip()] *)
Fixpoint lstrip (s : str) : str :=
  match s with
  | [] => []
  | c :: s' => if isspace c then lstrip s' else s
  end.

(** [s.rstrip()] *)
Definition rstrip (s : str) : str := rev (lstrip (rev s)).

(** [s.strip()] *)
Definition strip (s : str) : str := rstrip (lstrip s).

(** [s.split()]: the maximal runs of characters that are not white
    space, in order; no empty word. *)
Fixpoint split (s : str) : list str :=
  match s with
  | [] => []
  | c :: s' =>
      if isspace c then split s'
      else match s' with
           | [] => [[c]]
           | d :: _ =>
               if isspace d then [c] :: split s'
               else match split s' with
                    | w :: ws => (c :: w) :: ws
                    | [] => [[c]]
                    end
           end
  end.

(** [s.find(sub)], the lowest index at which [sub] occurs in [s]. *)
Fixpoint find (s sub : str) : option nat :=
  if startswith s sub then Some 0%nat
  else match s with
       | [] => None
       | _ :: s' => option_map S (find s' sub)
       end.

(** [sep.join(l)] *)
Fixpoint join (sep : str) (l : list str) : str :=
  match l with
  | [] => []
  | [x] => x
  | x :: l' => x ++ sep ++ join sep l'
  end.

End Py.

(** ** Exceptions and results *)

Inductive exn : Type :=
| IndexError | KeyError | ValueError | TypeError | AttributeError.

Inductive result (A : Type) : Type :=
| Ok (a : A)
| Raise (e : exn).
Arguments Ok {A} a.
Arguments Raise {A} e.

Definition rbind {A B : Type} (r : result A) (k : A -> result B) : result B :=
  match r with
  | Ok a => k a
  | Raise e => Raise e
  end.

Declare Scope res_scope.
Delimit Scope res_scope with res.
Notation "x <- c ;; k" := (rbind c (fun x => k))
  (at level 61, c at next level, right associativity) : res_scope.

(** [l[0]]: [IndexError] on an empty sequence. *)
Definition item0 {A : Type} (l : list A) : result A :=
  match l with
  | [] => Raise IndexError
  | x :: _ => Ok x
  end.

(** [s.index(sub)]: [ValueError] when [sub] does not occur. *)
Definition str_index (s sub : str) : result nat :=
  match Py.find s sub with
  | Some i => Ok i
  | None => Raise ValueError
  end.

(** [len(x)] of a list element that may be [None]. *)
Definition len_opt (x : option str) : result Z :=
  match x with
  | Some s => Ok (len s)
  | None => Raise TypeError
  end.

(** Joining a list of pieces with the empty separator: [TypeError] when
    an item is [None]. *)
Fixpoint join_pieces (l : list (option str)) : result str :=
  match l with
  | [] => Ok []
  | Some s :: l' => rbind (join_pieces l') (fun r => Ok (s ++ r))
  | None :: _ => Raise TypeError
  end.

(** Truth value of a string or a list: empty is false. *)
Definition truthy {A : Type} (l : list A) : bool :=
  match l with
  | [] => false
  | _ :: _ => true
  end.

(** ** The language registry ([_lang_map])

    Each entry of the dictionary is a record.  The three docstring keys
    are present together (".py") or absent together (".c"), so they form
    one optional group; reading one of them from an entry without the
    group is the [KeyError] of the dictionary lookup. *)

Record docstring_keys : Type := {
  style_docstring : Z;
  docstring_limit : Z;
  docstring_str : str
}.

Record lang : Type := {
  file_extension : str;
  comment_str : str;
  style_comment : Z;
  comment_limit : Z;
  docstring : option docstring_keys
}.

Definition py_lang : lang := {|
  file_extension := lit ".py";
  comment_str := lit "#";
  style_comment := 1;
  comment_limit := 72;
  docstring := Some {| style_docstring := 7;
                       docstring_limit := 72;
                       docstring_str := [] |}
|}.

Definition c_lang : lang := {|
  file_extension := lit ".c";
  comment_str := lit "//";
  style_comment := 2;
  comment_limit := 72;
  docstring := None
|}.

Definition _lang_map : list (str * lang) :=
  [ (lit ".py", py_lang); (lit ".c", c_lang) ].

(** [k in d] *)
Definition has_key {V : Type} (d : list (str * V)) (k : str) : bool :=
  existsb (fun kv => Py.str_eqb k (fst kv)) d.

(** [d[k]] *)
Fixpoint getitem {V : Type} (d : list (str * V)) (k : str) : result V :=
  match d with
  | [] => Raise KeyError
  | (k', v) :: d' => if Py.str_eqb k k' then Ok v else getitem d' k
  end.

(** [l_map["style_docstring"]] and the two other docstring keys. *)
Definition docstring_key {A : Type} (f : docstring_keys -> A) (l_map : lang)
  : result A :=
  match docstring l_map with
  | Some d => Ok (f d)
  | None => Raise KeyError
  end.

(** ** [os.path.splitext] and [str.lower]

    Standard library of the interpreter (the Windows flavour, [ntpath]:
    separators backslash and slash, extension separator dot). *)

Module OsPath.

(** [p.rfind(c)] for a one-character [c]: the highest index, or -1. *)
Fixpoint rfind_from (i : Z) (p : str) (c : ascii) : Z :=
  match p with
  | [] => -1
  | x :: p' =>
      let r := rfind_from (i + 1) p' c in
      if (0 <=? r)%Z then r else if Ascii.eqb x c then i else -1
  end.

Definition rfind (p : str) (c : ascii) : Z := rfind_from 0 p c.

(** [p[a:b]] for non-negative [a], [b]. *)
Definition slice (p : str) (a b : Z) : str :=
  firstn (Z.to_nat (b - a)) (skipn (Z.to_nat a) p).

(** The extension starts at the last dot of the last path component,
    unless that component has only dots before it. *)
Definition splitext (p : str) : str * str :=
  let sepIndex := Z.max (rfind p "\"%char) (rfind p "/"%char) in
  let dotIndex := rfind p "."%char in
  if (dotIndex >? sepIndex)%Z
  then if existsb (fun c => negb (Ascii.eqb c "."%char))
                  (slice p (sepIndex + 1) dotIndex)
       then (firstn (Z.to_nat dotIndex) p, skipn (Z.to_nat dotIndex) p)
       else (p, [])
  else (p, []).

Definition lower_char (c : ascii) : ascii :=
  let n := nat_of_ascii c in
  if (65 <=? n)%nat && (n <=? 90)%nat then ascii_of_nat (n + 32) else c.

Definition lower (s : str) : str := map lower_char s.

End OsPath.

(** ** The greedy packing loop of [_on_CHARADDED_wrap] (lines 148-168) *)

Definition crlf : str := ["013"%char; "010"%char].

Definition triple_quote : str := ["034"%char; "034"%char; "034"%char].

Local Open Scope Z_scope.

(** [it] is what the iterator has left; [new_words], [line_len] and
    [word_count] are the loop's variables.  [next(it, None)] inside the
    body takes one more word from the iterator, or [None]. *)
Fixpoint wrap_loop (line_start : str) (line_start_len line_len_limit : Z)
    (it : list str) (new_words : list (option str)) (line_len word_count : Z)
  : list (option str) :=
  match it with
  | [] => new_words
  | word :: it' =>
      let line_len := line_len + len word + 1 in
      let word_count := word_count + 1 in
      if line_len >? line_len_limit then
        if word_count =? 1 then
          match it' with
          | [] =>
              new_words ++ [Some word; Some crlf; Some line_start; None]
          | nxt :: it'' =>
              wrap_loop line_start line_start_len line_len_limit it''
                (new_words ++ [Some word; Some crlf; Some line_start; Some nxt])
                (line_start_len + len word) 1
          end
        else
          wrap_loop line_start line_start_len line_len_limit it'
            (new_words ++ [Some crlf; Some line_start; Some word])
            (line_start_len + len word) 1
      else
        wrap_loop line_start line_start_len line_len_limit it'
          (new_words ++ [Some (lit " "); Some word])
          line_len word_count
  end.

(** Lines 120-168: from the line to the list [new_words], [None] for an
    early [return]. *)
Definition build_new_words (line : str) (line_len_limit : Z) (str_start : str)
  : result (option (list (option str))) :=
  (let words := Py.split line in
   w0 <- item0 words ;;
   c0 <- item0 w0 ;;
   i <- str_index line [c0] ;;
   let white_space := firstn i line in
   if negb (truthy words) then Ok None else
   w0 <- item0 words ;;
   let words := if Py.str_eqb w0 str_start then tl words else words in
   if negb (truthy words) || (len words <=? 1) then Ok None else
   words <- (if truthy str_start
             then w0 <- item0 words ;;
                  if Py.startswith w0 str_start
                  then Ok (skipn (List.length str_start) w0 :: tl words)
                  else Ok words
             else Ok words) ;;
   let line_start :=
     if truthy str_start then white_space ++ str_start ++ lit " "
     else white_space in
   let line_start_len := len line_start in
   let first := hd_error words in
   let it := tl words in
   let new_words := [Some line_start; first] in
   n1 <- len_opt first ;;
   let line_len := line_start_len + n1 in
   Ok (Some (wrap_loop line_start line_start_len line_len_limit it
               new_words line_len 1)))%res.

(** ** The host editor

    The handlers read the editor through six queries and change it through
    four commands.  The editor is a collaborator of the script: it is a
    parameter here, with a state [St] of its own, and every command a
    handler issues is also appended to a log, so that "the handler wrote
    nothing" can be said whatever the editor is.  The queries are total:
    an editor that fails to answer is outside the model. *)

Inductive call : Type :=
| ReplaceLine (line_num : Z) (text : str)   (* editor.replaceLine *)
| AddText (text : str)                      (* editor.addText *)
| LineEnd                                   (* editor.lineEnd *)
| CharLeft.                                 (* editor.charLeft *)

Record Host (St : Type) : Type := {
  getCurrentFilename : St -> str;            (* notepad.getCurrentFilename *)
  getCurrentPos : St -> Z;
  lineFromPosition : St -> Z -> Z;
  getLine : St -> Z -> str;
  getLineEndPosition : St -> Z -> Z;
  getStyleAt : St -> Z -> Z;
  perform : call -> St -> St
}.

Record world (St : Type) : Type := {
  editor : St;
  calls : list call
}.

(** The event record of the notification; the script reads [args["ch"]]. *)
Record event : Type := { ch : Z }.

Section Handlers.

Context {St : Type} (host : Host St).

(** A handler step: a result or an exception, and the world after it. *)
Definition M (A : Type) : Type := world St -> result A * world St.

Definition ret {A : Type} (a : A) : M A := fun w => (Ok a, w).

Definition bind {A B : Type} (m : M A) (k : A -> M B) : M B :=
  fun w =>
    match m w with
    | (Ok a, w') => k a w'
    | (Raise e, w') => (Raise e, w')
    end.

Definition lift {A : Type} (r : result A) : M A := fun w => (r, w).

Definition query {A : Type} (f : St -> A) : M A :=
  fun w => (Ok (f (editor w)), w).

Definition command (c : call) : M unit :=
  fun w => (Ok tt, {| editor := perform host c (editor w);
                      calls := calls w ++ [c] |}).

Notation "x <- c ;; k" := (bind c (fun x => k))
  (at level 61, c at next level, right associativity).
Notation "c ;;; k" := (bind c (fun _ => k))
  (at level 61, right associativity).

(** *** [_is_comment] *)
Definition _is_comment (comment_str line : str) : bool :=
  if Py.startswith (Py.lstrip line) comment_str then true else false.

(** *** [get_lines] of [npplib.common]: the lines are read in order when
    the caller unpacks the generator. *)
Fixpoint get_lines (line_nums : list Z) : M (list str) :=
  match line_nums with
  | [] => ret []
  | i :: rest =>
      l <- query (fun s => getLine host s i) ;;
      ls <- get_lines rest ;;
      ret (l :: ls)
  end.

(** *** [_on_CHARADDED_wrap], lines 116-182: what follows the choice of
    [line_len_limit] and [str_start]. *)
Definition wrap_from_limit (type : str) (line_num : Z) (line : str)
    (line_len_limit : Z) (str_start : str) : M unit :=
  if len (Py.rstrip line) <=? line_len_limit then ret tt else
  r <- lift (build_new_words line line_len_limit str_start) ;;
  match r with
  | None => ret tt
  | Some new_words =>
      command (ReplaceLine line_num []) ;;;
      text <- lift (join_pieces new_words) ;;
      command (AddText text) ;;;
      command LineEnd ;;;
      if Py.str_eqb type (lit "docstring") then
        match last new_words None with
        | None => lift (Raise AttributeError)
        | Some s =>
            if Py.endswith s triple_quote then
              command CharLeft ;;; command CharLeft ;;; command CharLeft
            else ret tt
        end
      else ret tt
  end.

(** *** [_on_CHARADDED_wrap] *)
Definition _on_CHARADDED_wrap (l_map : lang) (ch : Z) (type : str)
  : M unit :=
  pos <- query (getCurrentPos host) ;;
  line_num <- query (fun s => lineFromPosition host s pos) ;;
  line <- query (fun s => getLine host s line_num) ;;
  line_end <- query (fun s => getLineEndPosition host s line_num) ;;
  if negb (pos =? line_end) && negb (ch =? 32) then ret tt else
  if Py.str_eqb type (lit "docstring") then
    style <- query (fun s => getStyleAt host s pos) ;;
    want <- lift (docstring_key style_docstring l_map) ;;
    if negb (style =? want) then ret tt else
    line_len_limit <- lift (docstring_key docstring_limit l_map) ;;
    str_start <- lift (docstring_key docstring_str l_map) ;;
    wrap_from_limit type line_num line line_len_limit str_start
  else if Py.str_eqb type (lit "comment") then
    if negb (_is_comment (comment_str l_map) line) then ret tt else
    wrap_from_limit type line_num line (comment_limit l_map)
      (comment_str l_map)
  else ret tt.

(** *** [_on_RETURN_insert_comment] *)
Definition _on_RETURN_insert_comment (l_map : lang) : M unit :=
  pos <- query (getCurrentPos host) ;;
  line_num <- query (fun s => lineFromPosition host s pos) ;;
  lines <- get_lines [line_num - 1; line_num - 2] ;;
  match lines with
  | [p_line; pp_line] =>
      cur <- query (fun s => getLine host s line_num) ;;
      let trailing_string := Py.strip cur in
      if negb (_is_comment (comment_str l_map) pp_line
               || truthy trailing_string)
         || negb (_is_comment (comment_str l_map) p_line)
      then ret tt
      else
        i <- lift (str_index p_line (comment_str l_map)) ;;
        command (ReplaceLine line_num
                   (firstn i p_line ++ comment_str l_map ++ lit " "
                    ++ trailing_string)) ;;;
        command LineEnd
  | _ => lift (Raise ValueError)
  end.

(** *** [on_CHARADDED_insert] *)
Definition on_CHARADDED_insert (args : event) : M unit :=
  name <- query (getCurrentFilename host) ;;
  let file_extension := OsPath.lower (snd (OsPath.splitext name)) in
  if negb (has_key _lang_map file_extension) then ret tt else
  if ch args =? 10 then
    l_map <- lift (getitem _lang_map file_extension) ;;
    _on_RETURN_insert_comment l_map
  else if Py.str_eqb file_extension (lit ".py") then
    l_map <- lift (getitem _lang_map (lit ".py")) ;;
    _on_CHARADDED_wrap l_map (ch args) (lit "docstring") ;;;
    l_map <- lift (getitem _lang_map (lit ".py")) ;;
    _on_CHARADDED_wrap l_map (ch args) (lit "comment")
  else if Py.str_eqb file_extension (lit ".c") then
    l_map <- lift (getitem _lang_map (lit ".c")) ;;
    _on_CHARADDED_wrap l_map (ch args) (lit "comment")
  else ret tt.

End Handlers.

(** * Vocabulary of the properties

    Names for what the handlers read, for the conditions they test and for
    the text they write, used to state the properties below. *)

(** The leading white space of a line, the part [lstrip] removes. *)
Fixpoint leading_space (line : str) : str :=
  match line with
  | [] => []
  | c :: s => if Py.isspace c then c :: leading_space s else []
  end.

(** ** The paragraph block

    The text the loop builds, seen as output lines: each output line is the
    line prefix followed by its words with single spaces between them, and
    the output lines are separated by the line terminator. *)

Definition render_line (line_start : str) (ws : list str) : str :=
  line_start ++ Py.join (lit " ") ws.

Definition render_block (line_start : str) (block : list (list str)) : str :=
  Py.join crlf (map (render_line line_start) block).

(** The words of each output line: [cur] is the line being filled and
    [line_len] its length, [it] the words still to place. *)
Fixpoint pack (line_start_len limit : Z) (cur : list str) (line_len : Z)
    (it : list str) : list (list str) :=
  match it with
  | [] => [cur]
  | word :: it' =>
      if line_len + len word + 1 >? limit
      then cur :: pack line_start_len limit [word] (line_start_len + len word) it'
      else pack line_start_len limit (cur ++ [word]) (line_len + len word + 1) it'
  end.

Definition paragraph_block (line_start : str) (limit : Z) (words : list str)
  : list (list str) :=
  match words with
  | [] => []
  | w :: it => pack (len line_start) limit [w] (len line_start + len w) it
  end.

(** An output line is within the limit, or holds a single word. *)
Definition fits_or_single (line_start : str) (limit : Z) (g : list str)
  : Prop :=
  len (render_line line_start g) <= limit \/ exists word, g = [word].

(** ** From the line to the paragraph block *)

(** The words of the line once the bare marker is dropped (lines 121,
    128-130). *)
Definition marker_dropped (line str_start : str) : list str :=
  match Py.split line with
  | w0 :: rest => if Py.str_eqb w0 str_start then rest else w0 :: rest
  | [] => []
  end.

(** The marker glued to the first word is removed (lines 136-138). *)
Definition marker_stripped (str_start : str) (words : list str) : list str :=
  match words with
  | w0 :: rest =>
      if truthy str_start && Py.startswith w0 str_start
      then skipn (List.length str_start) w0 :: rest
      else words
  | [] => []
  end.

(** The token sequence that is packed. *)
Definition wrap_words (line str_start : str) : list str :=
  marker_stripped str_start (marker_dropped line str_start).

(** The prefix of every output line (lines 140-144). *)
Definition wrap_line_start (line str_start : str) : str :=
  if truthy str_start then leading_space line ++ str_start ++ lit " "
  else leading_space line.

Definition wrap_block (line : str) (limit : Z) (str_start : str)
  : list (list str) :=
  paragraph_block (wrap_line_start line str_start) limit
    (wrap_words line str_start).

(** *** The preconditions of the re-wrapper *)

(** [line_len_limit] and [str_start] of the wrapping format (lines
    102-103 and 110-111). *)
Definition wrap_params (l_map : lang) (type : str) : option (Z * str) :=
  if Py.str_eqb type (lit "docstring") then
    match docstring l_map with
    | Some d => Some (docstring_limit d, docstring_str d)
    | None => None
    end
  else if Py.str_eqb type (lit "comment") then
    Some (comment_limit l_map, comment_str l_map)
  else None.

(** The caret moves of lines 178-182. *)
Definition caret_fix (type : str) (words : list str) : list call :=
  if Py.str_eqb type (lit "docstring")
     && Py.endswith (last words []) triple_quote
  then [CharLeft; CharLeft; CharLeft]
  else [].

(** The commands of an accepted line, for the output lines [block]. *)
Definition wrap_commands (type : str) (line_num : Z) (line_start : str)
    (block : list (list str)) (words : list str) : list call :=
  [ReplaceLine line_num []; AddText (render_block line_start block); LineEnd]
  ++ caret_fix type words.

Section Vocabulary.

Context {St : Type} (host : Host St).

(** What the handlers read at their start. *)
Definition cur_pos (w : world St) : Z := getCurrentPos host (editor w).

Definition cur_line_num (w : world St) : Z :=
  lineFromPosition host (editor w) (cur_pos w).

Definition cur_line (w : world St) : str :=
  getLine host (editor w) (cur_line_num w).

(** The world after the commands [cs] were issued, in this order. *)
Definition issue (cs : list call) (w : world St) : world St :=
  {| editor := fold_left (fun s c => perform host c s) cs (editor w);
     calls := calls w ++ cs |}.

(** The caret is at the end of the line, or a space was typed (line 93). *)
Definition caret_ok (ch : Z) (w : world St) : bool :=
  (cur_pos w =? getLineEndPosition host (editor w) (cur_line_num w))
  || (ch =? 32).

(** The line is of the wrapping format (lines 97-114). *)
Definition context_ok (l_map : lang) (type : str) (w : world St) : bool :=
  if Py.str_eqb type (lit "docstring") then
    match docstring l_map with
    | Some d => getStyleAt host (editor w) (cur_pos w) =? style_docstring d
    | None => false
    end
  else if Py.str_eqb type (lit "comment") then
    _is_comment (comment_str l_map) (cur_line w)
  else false.

(** The line is longer than the limit (line 117). *)
Definition length_ok (limit : Z) (w : world St) : bool :=
  limit <? len (Py.rstrip (cur_line w)).

(** Two words at least are left once the bare marker is dropped (lines
    125-134). *)
Definition tokens_ok (str_start : str) (w : world St) : bool :=
  2 <=? len (marker_dropped (cur_line w) str_start).

Definition wrap_accepts (l_map : lang) (ch : Z) (type : str) (w : world St)
  : bool :=
  match wrap_params l_map type with
  | Some (limit, str_start) =>
      caret_ok ch w && context_ok l_map type w
      && length_ok limit w && tokens_ok str_start w
  | None => false
  end.

Definition prev_line (w : world St) : str :=
  getLine host (editor w) (cur_line_num w - 1).

Definition prev_prev_line (w : world St) : str :=
  getLine host (editor w) (cur_line_num w - 2).

Definition trailing_string (w : world St) : str :=
  Py.strip (cur_line w).

(** The decision of lines 200-202. *)
Definition continues (l_map : lang) (w : world St) : bool :=
  _is_comment (comment_str l_map) (prev_line w)
  && (_is_comment (comment_str l_map) (prev_prev_line w)
      || truthy (trailing_string w)).

(** The lowercased extension of the active file (line 58). *)
Definition active_extension (w : world St) : str :=
  OsPath.lower (snd (OsPath.splitext (getCurrentFilename host (editor w)))).

(** [n + 1] calls of a handler, one after the other. *)
Fixpoint repeated (n : nat) (handler : M (St := St) unit)
  : M (St := St) unit :=
  match n with
  | O => handler
  | S n' => bind handler (fun _ => repeated n' handler)
  end.

End Vocabulary.

(** ** A small editor

    One instance of [Host], to run the handlers on concrete documents: a
    flat text, a caret offset and a style per byte.  A line ends after its
    line feed; the last line has no line end. *)

Module Buffer.

Record t : Type := {
  filename : str;
  text : str;
  caret : Z;
  styles : list Z
}.

Definition LF : ascii := "010"%char.
Definition CR : ascii := "013"%char.

Fixpoint doc_lines (s : str) : list str :=
  match s with
  | [] => [[]]
  | c :: s' =>
      match doc_lines s' with
      | l :: ls => if Ascii.eqb c LF then [c] :: l :: ls else (c :: l) :: ls
      | [] => [[c]]
      end
  end.

Definition line (b : t) (n : Z) : str :=
  if n <? 0 then [] else nth (Z.to_nat n) (doc_lines (text b)) [].

Definition line_of_pos (b : t) (pos : Z) : Z :=
  len (filter (Ascii.eqb LF) (firstn (Z.to_nat pos) (text b))).

Definition pos_of_line (b : t) (n : Z) : Z :=
  len (List.concat (firstn (Z.to_nat n) (doc_lines (text b)))).

Fixpoint drop_eol (rev_line : str) : str :=
  match rev_line with
  | c :: r => if Ascii.eqb c LF || Ascii.eqb c CR then drop_eol r
              else rev_line
  | [] => []
  end.

Definition line_end_pos (b : t) (n : Z) : Z :=
  pos_of_line b n + len (drop_eol (rev (line b n))).

Definition splice (s : str) (a b : Z) (new : str) : str :=
  firstn (Z.to_nat a) s ++ new ++ skipn (Z.to_nat b) s.

Definition do_call (c : call) (b : t) : t :=
  match c with
  | ReplaceLine n new =>
      let a := pos_of_line b n in
      let e := line_end_pos b n in
      {| filename := filename b;
         text := splice (text b) a e new;
         caret := if caret b <=? a then caret b
                  else if caret b <=? e then a
                  else caret b - (e - a) + len new;
         styles := styles b |}
  | AddText new =>
      {| filename := filename b;
         text := splice (text b) (caret b) (caret b) new;
         caret := caret b + len new;
         styles := styles b |}
  | LineEnd =>
      {| filename := filename b;
         text := text b;
         caret := line_end_pos b (line_of_pos b (caret b));
         styles := styles b |}
  | CharLeft =>
      {| filename := filename b;
         text := text b;
         caret := Z.max 0 (caret b - 1);
         styles := styles b |}
  end.

Definition host : Host t := {|
  getCurrentFilename := filename;
  getCurrentPos := caret;
  lineFromPosition := line_of_pos;
  getLine := line;
  getLineEndPosition := line_end_pos;
  getStyleAt := fun b pos => if pos <? 0 then 0
                             else nth (Z.to_nat pos) (styles b) 0;
  perform := do_call
|}.

(** A document with the caret at the end of the text. *)
Definition at_end (name : string) (content : str) : world t :=
  {| editor := {| filename := lit name; text := content;
                  caret := len content; styles := [] |};
     calls := [] |}.

End Buffer.

(** ** Documents to run the handlers on *)

(** The profile of the scenario: marker "#", limit 10. *)
Definition narrow_lang : lang := {|
  file_extension := lit ".py";
  comment_str := lit "#";
  style_comment := 1;
  comment_limit := 10;
  docstring := None
|}.

(** The wrapping format of comments. *)
Definition comment : str := lit "comment".

(** A long comment, the caret at its end. *)
Definition long_comment : world Buffer.t :=
  Buffer.at_end "C:\work\notes.py" (lit "    # this is a long comment line").

(** A comment with a word longer than the limit 10. *)
Definition long_word_comment : world Buffer.t :=
  Buffer.at_end "C:\work\notes.py" (lit "# a abcdefghijklmnop b c").

(** A comment shorter than 72. *)
Definition short_comment : world Buffer.t :=
  Buffer.at_end "C:\work\notes.py" (lit "# short").

(** Enter was pressed inside the comment of the second line: "foo" was
    carried to the third line, where the caret is; the first line is
    code. *)
Definition after_enter : world Buffer.t :=
  Buffer.at_end "C:\work\notes.py"
    (lit "x = 1" ++ crlf ++ lit "  # note" ++ crlf ++ lit "foo").

(** Enter was pressed after a line of code. *)
Definition after_code : world Buffer.t :=
  Buffer.at_end "C:\work\notes.py" (lit "x = 1" ++ crlf).

(** A file of a language the registry does not have. *)
Definition markdown : world Buffer.t :=
  Buffer.at_end "C:\work\README.MD"
    (lit "# a heading that is long enough to be wrapped if it were a comment of a supported language").

Unset Implicit Arguments.

(** * The rest of the code *)

(** ** [_are_comments] of [npplib.insert] *)

Definition _are_comments (comment_str : str) (lines : list str) : bool :=
  if forallb (_is_comment comment_str) lines then true else false.

(** ** [npplib.common]: the console, and the script [auto_insert]

    What the script asks of the console and of the editor, in order. *)

Inductive script_call : Type :=
| ConsoleWrite (text : str)        (* console.write *)
| ConsoleWriteError (text : str)   (* console.writeError *)
| Callback          (* editor.callback(on_CHARADDED_insert, [CHARADDED]) *)
| ClearCallbacks.   (* editor.clearCallbacks(on_CHARADDED_insert, [CHARADDED]) *)

Section Console.

(** The objects printed and their conversion [str(elem)]. *)
Context {Obj : Type} (py_str : Obj -> str).

(** [print_debug]: one line, the arguments separated by a space. *)
Definition print_debug (args : list Obj) (log : list script_call)
  : list script_call :=
  log ++ [ConsoleWrite (Py.join (lit " ") (map py_str args ++ [crlf]))].

(** [print_err]: the same on the error stream. *)
Definition print_err (args : list Obj) (log : list script_call)
  : list script_call :=
  log ++ [ConsoleWriteError (Py.join (lit " ") (map py_str args ++ [crlf]))].

End Console.

(** The global name [bound] of the script ([None] while it is not
    defined) and what the script has asked so far.  The script runs under
    Python 2, where the [global] statement of [main] holds for the whole
    body: [bound = not bound] reads the global name, and the [NameError]
    of the first run is caught by [except Exception]. *)
Record script : Type := {
  bound : option bool;
  asked : list script_call
}.

(** [main()] of [scripts/auto_insert.py]; the messages are strings, which
    [str] leaves as they are. *)
Definition main (s : script) : script :=
  let bound' :=
    match bound s with
    | Some b => negb b
    | None => true
    end in
  if bound' then
    {| bound := Some bound';
       asked := print_debug (fun x : str => x)
                  [lit "Binding on_CHARADDED_insert functions"] (asked s)
                ++ [Callback] |}
  else
    {| bound := Some bound';
       asked := print_debug (fun x : str => x)
                  [lit "Un-binding on_CHARADDED_insert functions"] (asked s)
                ++ [ClearCallbacks] |}.

(** The script run [n] times. *)
Fixpoint runs (n : nat) (s : script) : script :=
  match n with
  | O => s
  | S n' => main (runs n' s)
  end.

(** The registrations among what was asked: [true] for a callback bound,
    [false] for the callbacks cleared. *)
Fixpoint registrations (l : list script_call) : list bool :=
  match l with
  | [] => []
  | Callback :: l' => true :: registrations l'
  | ClearCallbacks :: l' => false :: registrations l'
  | _ :: l' => registrations l'
  end.

(** The script before its first run. *)
Definition fresh : script := {| bound := None; asked := [] |}.

(** ** More vocabulary *)


(** Every line break of the block is forced: the first word of an output
    line did not fit at the end of the output line before it. *)
Fixpoint forced_breaks (line_start : str) (limit : Z)
    (block : list (list str)) : Prop :=
  match block with
  | [] => True
  | g :: rest =>
      match rest with
      | (word :: _) :: _ =>
          limit < len (render_line line_start g) + len word + 1
      | _ => True
      end
      /\ forced_breaks line_start limit rest
  end.

(** The characters of a string that are not white space. *)
Definition squeeze (s : str) : str :=
  filter (fun c => negb (Py.isspace c)) s.

(** A comment whose first word, after the bare marker, starts with the
    marker. *)
Definition marked_word_comment : world Buffer.t :=
  Buffer.at_end "C:\work\notes.py" (lit "# #todo fix it now").

(** A document with two comment lines and an empty third line, where the
    caret is. *)
Definition two_comments : world Buffer.t :=
  Buffer.at_end "C:\work\notes.c"
    (lit "  // one" ++ crlf ++ lit "  // two" ++ crlf).

(** A line of white space in a docstring. *)
Definition blank_line : str := lit "     ".

(** * Properties *)

(** ** Strings *)

Section StringLemmas.

Lemma str_eqb_eq (a b : str) : Py.str_eqb a b = true <-> a = b.
Proof.
  revert b; induction a as [|x a IH]; intros [|y b]; simpl;
    try (split; (discriminate || reflexivity)).
  rewrite andb_true_iff, IH, Ascii.eqb_eq.
  split; [intros [-> ->]; reflexivity | intros E; injection E; auto].
Qed.

Lemma leading_space_lstrip (s : str) : leading_space s ++ Py.lstrip s = s.
Proof.
  induction s as [|c s IH]; simpl; [reflexivity|].
  destruct (Py.isspace c); simpl; [f_equal; exact IH | reflexivity].
Qed.

Lemma lstrip_head (s r : str) (c : ascii) :
  Py.lstrip s = c :: r -> Py.isspace c = false.
Proof.
  induction s as [|a s IH]; simpl; [discriminate|].
  destruct (Py.isspace a) eqn:E; [exact IH|].
  intros H; injection H as -> _; exact E.
Qed.

Lemma lstrip_nil (s : str) :
  Py.lstrip s = [] <-> forallb Py.isspace s = true.
Proof.
  induction s as [|a s IH]; simpl; [tauto|].
  destruct (Py.isspace a); simpl; [exact IH|].
  split; discriminate.
Qed.

Lemma rstrip_nil (s : str) :
  Py.rstrip s = [] <-> forallb Py.isspace s = true.
Proof.
  unfold Py.rstrip.
  rewrite <- (rev_involutive s) at 2.
  split.
  - intros H. apply (f_equal (@rev ascii)) in H.
    rewrite rev_involutive in H; simpl in H.
    apply lstrip_nil in H.
    rewrite forallb_forall in *; intros x Hx; apply H.
    apply in_rev; rewrite rev_involutive; rewrite rev_involutive in Hx.
    exact Hx.
  - intros H.
    assert (forallb Py.isspace (rev s) = true) as H'.
    { rewrite forallb_forall in *; intros x Hx; apply H.
      rewrite rev_involutive; apply in_rev; exact Hx. }
    apply lstrip_nil in H'; rewrite H'; reflexivity.
Qed.

(** The first word of [split] starts at the first character that is not
    white space. *)
Lemma split_lstrip (s : str) :
  match Py.lstrip s with
  | [] => Py.split s = []
  | c :: _ => exists r ws, Py.split s = (c :: r) :: ws
  end.
Proof.
  induction s as [|a s IH]; simpl; [reflexivity|].
  destruct (Py.isspace a) eqn:E; [exact IH|].
  destruct s as [|d s']; [eauto|].
  destruct (Py.isspace d); [eauto|].
  destruct (Py.split (d :: s')); eauto.
Qed.

(** [line.index(c)] for the first character [c] that is not white space
    is the length of the leading white space. *)
Lemma find_first_nonspace (s r : str) (c : ascii) :
  Py.lstrip s = c :: r ->
  Py.find s [c] = Some (List.length (leading_space s)).
Proof.
  induction s as [|a s IH]; [discriminate|].
  intros H; pose proof (lstrip_head _ _ _ H) as Hc.
  simpl in H |- *.
  destruct (Py.isspace a) eqn:E.
  - destruct (Ascii.eqb c a) eqn:Eca.
    + apply Ascii.eqb_eq in Eca; congruence.
    + simpl. rewrite (IH H); reflexivity.
  - injection H as -> _.
    rewrite Ascii.eqb_refl; reflexivity.
Qed.

Lemma find_startswith_lstrip (s p : str) :
  Py.startswith (Py.lstrip s) p = true ->
  exists i, Py.find s p = Some i.
Proof.
  induction s as [|a s IH]; simpl.
  - intros H; rewrite H; eauto.
  - destruct (Py.isspace a).
    + intros H. destruct (IH H) as [i Hi].
      destruct p as [|x p]; [simpl; eauto|].
      simpl Py.startswith at 1.
      destruct (Ascii.eqb x a && Py.startswith s p); [eauto|].
      rewrite Hi; simpl; eauto.
    + intros H. simpl in H. destruct p as [|x p]; [simpl; eauto|].
      simpl in H |- *. rewrite H; eauto.
Qed.

End StringLemmas.

Section Packing.

Variable line_start : str.
Variable limit : Z.

Let start_len : Z := len line_start.

Lemma join_snoc (sep : str) (l : list str) (w : str) :
  l <> [] -> Py.join sep (l ++ [w]) = Py.join sep l ++ sep ++ w.
Proof.
  induction l as [|x l IH]; [congruence|intros _].
  destruct l as [|y l]; [reflexivity|].
  change (Py.join sep ((x :: y :: l) ++ [w]))
    with (x ++ sep ++ Py.join sep ((y :: l) ++ [w])).
  rewrite IH by discriminate.
  change (Py.join sep (x :: y :: l)) with (x ++ sep ++ Py.join sep (y :: l)).
  rewrite <- !app_assoc; reflexivity.
Qed.

Lemma join_cons (sep x : str) (l : list str) :
  l <> [] -> Py.join sep (x :: l) = x ++ sep ++ Py.join sep l.
Proof. destruct l; [congruence|reflexivity]. Qed.

Lemma pack_nonempty (cur : list str) (line_len : Z) (it : list str) :
  pack start_len limit cur line_len it <> [].
Proof.
  revert cur line_len; induction it as [|w it IH]; intros; simpl;
    [discriminate|].
  destruct (_ >? _); [discriminate|apply IH].
Qed.

Lemma join_pieces_snoc (l : list (option str)) (t : str) (extra : list str) :
  join_pieces l = Ok t ->
  join_pieces (l ++ map Some extra) = Ok (t ++ List.concat extra).
Proof.
  revert t; induction l as [|[s|] l IH]; simpl; intros t H.
  - injection H as <-; induction extra as [|e extra IHe]; simpl;
      [reflexivity|rewrite IHe; reflexivity].
  - destruct (join_pieces l) as [r|] eqn:E; simpl in H; [|discriminate].
    injection H as <-. rewrite (IH r eq_refl); simpl.
    rewrite app_assoc; reflexivity.
  - discriminate.
Qed.

(** The loop never takes the branch of [word_count == 1]: the counter is
    at least 2 when it is tested.  Its output is the rendering of [pack]. *)
Lemma wrap_loop_text (it : list str) :
  forall (new_words : list (option str)) (line_len word_count : Z)
         (cur : list str) (t : str),
    1 <= word_count ->
    cur <> [] ->
    join_pieces new_words = Ok (t ++ render_line line_start cur) ->
    join_pieces
      (wrap_loop line_start start_len limit it new_words line_len word_count)
    = Ok (t ++ render_block line_start
                 (pack start_len limit cur line_len it)).
Proof.
  induction it as [|word it IH]; intros nw ll wc cur t Hwc Hcur Hnw.
  - simpl; unfold render_block; simpl; exact Hnw.
  - cbn [wrap_loop pack]. destruct (ll + len word + 1 >? limit) eqn:Hgt.
    + replace (wc + 1 =? 1) with false by (symmetry; apply Z.eqb_neq; lia).
      unfold render_block; simpl map.
      rewrite join_cons
        by (intros E; apply map_eq_nil in E; revert E; apply pack_nonempty).
      rewrite !app_assoc. rewrite <- (app_assoc t).
      apply IH; [lia|discriminate|].
      change [Some crlf; Some line_start; Some word]
        with (map Some [crlf; line_start; word]).
      rewrite (join_pieces_snoc nw _ [crlf; line_start; word] Hnw); simpl.
      unfold render_line; simpl.
      rewrite app_nil_r, <- !app_assoc; reflexivity.
    + apply IH; [lia|destruct cur; discriminate|].
      change [Some (lit " "); Some word] with (map Some [lit " "; word]).
      rewrite (join_pieces_snoc nw _ [lit " "; word] Hnw); simpl.
      unfold render_line; rewrite join_snoc by exact Hcur.
      rewrite app_nil_r, <- !app_assoc; reflexivity.
Qed.

Lemma last_cons_default {A : Type} (l : list A) :
  forall x d : A, last (x :: l) d = last l x.
Proof.
  induction l as [|y l IH]; intros x d; [reflexivity|].
  change (last (x :: y :: l) d) with (last (y :: l) d).
  rewrite (IH y d), (IH y x); reflexivity.
Qed.

Lemma last_app_snoc {A : Type} (l l' : list A) (x d : A) :
  last (l ++ l' ++ [x]) d = x.
Proof. rewrite app_assoc; apply last_last. Qed.

Lemma wrap_loop_last (it : list str) :
  forall (new_words : list (option str)) (line_len word_count : Z) (w : str),
    1 <= word_count ->
    last new_words None = Some w ->
    last (wrap_loop line_start start_len limit it new_words line_len
            word_count) None
    = Some (last it w).
Proof.
  induction it as [|word it IH]; intros nw ll wc w Hwc Hnw; [exact Hnw|].
  simpl wrap_loop.
  replace (wc + 1 =? 1) with false by (symmetry; apply Z.eqb_neq; lia).
  rewrite last_cons_default.
  destruct (_ >? _); apply IH; try lia.
  - exact (last_app_snoc nw [Some crlf; Some line_start] (Some word) None).
  - exact (last_app_snoc nw [Some (lit " ")] (Some word) None).
Qed.

(** *** No word is lost, duplicated or reordered *)

Lemma pack_concat (it : list str) :
  forall (cur : list str) (line_len : Z),
    List.concat (pack start_len limit cur line_len it) = cur ++ it.
Proof.
  induction it as [|w it IH]; intros cur ll; simpl.
  - reflexivity.
  - destruct (_ >? _); simpl; rewrite IH; [reflexivity|].
    rewrite <- app_assoc; reflexivity.
Qed.

Lemma pack_groups_nonempty (it : list str) :
  forall (cur : list str) (line_len : Z),
    cur <> [] ->
    Forall (fun g => g <> []) (pack start_len limit cur line_len it).
Proof.
  induction it as [|w it IH]; intros cur ll Hcur; simpl.
  - constructor; [exact Hcur|constructor].
  - destruct (_ >? _).
    + constructor; [exact Hcur|apply IH; discriminate].
    + apply IH; destruct cur; discriminate.
Qed.

End Packing.

Lemma firstn_leading_space (line : str) :
  firstn (List.length (leading_space line)) line = leading_space line.
Proof.
  rewrite <- (leading_space_lstrip line) at 2.
  rewrite firstn_app, Nat.sub_diag, firstn_all; simpl.
  apply app_nil_r.
Qed.

(** Lines 121-122 on a line with a word: no exception, and [white_space]
    is the leading white space. *)
Lemma white_space_ok (line w0 : str) (rest : list str) :
  Py.split line = w0 :: rest ->
  exists c0, item0 w0 = Ok c0 /\
    str_index line [c0] = Ok (List.length (leading_space line)).
Proof.
  intros Hs. pose proof (split_lstrip line) as H.
  destruct (Py.lstrip line) as [|c r] eqn:El; [congruence|].
  destruct H as (r' & ws & H). rewrite Hs in H. injection H as -> ->.
  exists c; split; [reflexivity|].
  unfold str_index; rewrite (find_first_nonspace _ _ _ El); reflexivity.
Qed.

Lemma build_new_words_accepted (line : str) (limit : Z) (str_start : str) :
  2 <= len (marker_dropped line str_start) ->
  exists new_words,
    build_new_words line limit str_start = Ok (Some new_words) /\
    join_pieces new_words
    = Ok (render_block (wrap_line_start line str_start)
            (wrap_block line limit str_start)) /\
    last new_words None = Some (last (wrap_words line str_start) []).
Proof.
  unfold wrap_block, wrap_words, marker_dropped, build_new_words.
  destruct (Py.split line) as [|w0 rest] eqn:Hs; [unfold len; simpl; lia|].
  destruct (white_space_ok _ _ _ Hs) as (c0 & Hc0 & Hi).
  cbn [item0 rbind truthy negb]. 
  change (item0 w0) with (@item0 ascii w0). rewrite Hc0.
  cbn [rbind]. rewrite Hi. cbn [rbind].
  rewrite firstn_leading_space.
  fold (wrap_line_start line str_start).
  set (words := if Py.str_eqb w0 str_start then tl (w0 :: rest) else w0 :: rest).
  change (if Py.str_eqb w0 str_start then rest else w0 :: rest) with words.
  intros Hlen.
  destruct words as [|w1 [|w2 ws]] eqn:Hw;
    try (unfold len in Hlen; simpl in Hlen; lia).
  cbn [truthy negb orb].
  replace (len (w1 :: w2 :: ws) <=? 1) with false
    by (symmetry; apply Z.leb_gt; lia).
  fold (wrap_line_start line str_start).
  assert (exists w1', marker_stripped str_start (w1 :: w2 :: ws)
                      = w1' :: w2 :: ws) as (w1' & Hst).
  { simpl. destruct (truthy str_start && Py.startswith w1 str_start); eauto. }
  rewrite Hst.
  replace (if truthy str_start
           then (w3 <- item0 (w1 :: w2 :: ws);;
                 (if Py.startswith w3 str_start
                  then Ok (skipn (List.length str_start) w3
                           :: tl (w1 :: w2 :: ws))
                  else Ok (w1 :: w2 :: ws)))%res
           else Ok (w1 :: w2 :: ws))
    with (Ok (w1' :: w2 :: ws)).
  2:{ rewrite <- Hst; simpl.
      destruct (truthy str_start); [|reflexivity].
      destruct (Py.startswith w1 str_start); reflexivity. }
  cbn [rbind hd_error tl len_opt].
  eexists; split; [reflexivity|split].
  - apply (wrap_loop_text (wrap_line_start line str_start) limit
             (w2 :: ws) _ _ 1 [w1'] []); [lia|discriminate|].
    simpl; unfold render_line; simpl; rewrite app_nil_r; reflexivity.
  - rewrite (wrap_loop_last (wrap_line_start line str_start) limit
               (w2 :: ws) _ _ 1 w1'); [|lia|reflexivity].
    rewrite !last_cons_default; reflexivity.
Qed.

(** The early exits of lines 121-134. *)
Lemma build_new_words_rejected (line : str) (limit : Z) (str_start : str) :
  len (marker_dropped line str_start) <= 1 ->
  build_new_words line limit str_start
  = match Py.split line with
    | [] => Raise IndexError
    | _ :: _ => Ok None
    end.
Proof.
  unfold marker_dropped, build_new_words.
  destruct (Py.split line) as [|w0 rest] eqn:Hs; [reflexivity|].
  destruct (white_space_ok _ _ _ Hs) as (c0 & Hc0 & Hi).
  cbn [item0 rbind truthy negb].
  change (item0 w0) with (@item0 ascii w0). rewrite Hc0.
  cbn [rbind]. rewrite Hi. cbn [rbind].
  set (words := if Py.str_eqb w0 str_start then tl (w0 :: rest) else w0 :: rest).
  change (if Py.str_eqb w0 str_start then rest else w0 :: rest) with words.
  intros Hlen.
  destruct words as [|w1 ws]; [reflexivity|].
  cbn [truthy negb orb].
  apply Z.leb_le in Hlen; rewrite Hlen; reflexivity.
Qed.

(** ** Line lengths of the paragraph block *)

Lemma len_app {A : Type} (a b : list A) : len (a ++ b) = len a + len b.
Proof. unfold len; rewrite length_app; lia. Qed.

Lemma len_nonneg {A : Type} (a : list A) : 0 <= len a.
Proof. unfold len; lia. Qed.

Section PackingBounds.

Variable line_start : str.
Variable limit : Z.

Lemma render_line_snoc (cur : list str) (word : str) :
  cur <> [] ->
  len (render_line line_start (cur ++ [word]))
  = len (render_line line_start cur) + len word + 1.
Proof.
  intros H; unfold render_line.
  rewrite join_snoc by exact H.
  rewrite !len_app; change (len (lit " ")) with 1; lia.
Qed.

Lemma pack_fits (it : list str) :
  forall (cur : list str) (line_len : Z),
    cur <> [] ->
    line_len = len (render_line line_start cur) ->
    fits_or_single line_start limit cur ->
    Forall (fits_or_single line_start limit) (pack (len line_start) limit cur line_len it).
Proof.
  induction it as [|word it IH]; intros cur ll Hcur Hll Hfit; simpl.
  - constructor; [exact Hfit|constructor].
  - destruct (ll + len word + 1 >? limit) eqn:Hgt.
    + constructor; [exact Hfit|].
      apply IH; [discriminate| |right; eauto].
      unfold render_line; simpl; rewrite len_app; reflexivity.
    + rewrite Z.gtb_ltb in Hgt; apply Z.ltb_ge in Hgt.
      pose proof (render_line_snoc cur word Hcur) as Hs.
      apply IH; [destruct cur; discriminate|lia|left; lia].
Qed.

(** Once the running length has reached the limit, the next word opens a
    new line. *)
Lemma pack_full (cur : list str) (line_len : Z) (it : list str) :
  limit <= line_len ->
  pack (len line_start) limit cur line_len it
  = cur :: match it with
           | [] => []
           | a :: it' =>
               pack (len line_start) limit [a] (len line_start + len a) it'
           end.
Proof.
  intros H; destruct it as [|a it]; simpl; [reflexivity|].
  pose proof (len_nonneg a).
  replace (line_len + len a + 1 >? limit) with true; [reflexivity|].
  symmetry; apply Z.gtb_lt; lia.
Qed.

Lemma pack_after_long (w : str) (after : list str) :
  limit < len w ->
  exists b2,
    pack (len line_start) limit [w] (len line_start + len w) after
    = [w] :: b2 /\
    List.concat b2 = after /\ Forall (fun g => g <> []) b2.
Proof.
  intros Hw. pose proof (len_nonneg line_start).
  rewrite pack_full by lia.
  destruct after as [|a after]; [exists []; auto|].
  eexists; split; [reflexivity|split].
  - apply pack_concat.
  - apply pack_groups_nonempty; discriminate.
Qed.

Lemma pack_long_word (w : str) (after before : list str) :
  forall (cur : list str) (line_len : Z),
    limit < len w ->
    len line_start <= line_len ->
    cur <> [] ->
    exists b1 b2,
      pack (len line_start) limit cur line_len (before ++ w :: after)
      = b1 ++ [w] :: b2 /\
      List.concat b1 = cur ++ before /\
      List.concat b2 = after /\
      Forall (fun g => g <> []) b1 /\
      Forall (fun g => g <> []) b2.
Proof.
  pose proof (len_nonneg line_start) as Hls.
  induction before as [|x before IH]; intros cur ll Hw Hll Hcur.
  - destruct (pack_after_long w after Hw) as (b2 & Hb2 & Hc & Hne).
    simpl app. cbn [pack].
    replace (ll + len w + 1 >? limit) with true
      by (symmetry; apply Z.gtb_lt; lia).
    rewrite Hb2. exists [cur], b2; simpl.
    rewrite !app_nil_r; repeat split; auto.
  - simpl app. cbn [pack]. pose proof (len_nonneg x).
    destruct (ll + len x + 1 >? limit).
    + destruct (IH [x] (len line_start + len x) Hw) as
        (b1 & b2 & Hp & Hc1 & Hc2 & Hn1 & Hn2); [lia|discriminate|].
      rewrite Hp. exists (cur :: b1), b2; simpl; rewrite Hc1.
      repeat split; auto.
    + destruct (IH (cur ++ [x]) (ll + len x + 1) Hw) as
        (b1 & b2 & Hp & Hc1 & Hc2 & Hn1 & Hn2);
        [lia|destruct cur; discriminate|].
      rewrite Hp. exists b1, b2. rewrite Hc1, <- app_assoc.
      repeat split; auto.
Qed.

Lemma paragraph_block_long_word (w : str) (before after : list str) :
  limit < len w ->
  exists b1 b2,
    paragraph_block line_start limit (before ++ w :: after)
    = b1 ++ [w] :: b2 /\
    List.concat b1 = before /\
    List.concat b2 = after /\
    Forall (fun g => g <> []) b1 /\
    Forall (fun g => g <> []) b2.
Proof.
  intros Hw. destruct before as [|x before]; simpl.
  - destruct (pack_after_long w after Hw) as (b2 & Hb2 & Hc & Hne).
    exists [], b2; simpl; auto.
  - pose proof (len_nonneg x).
    apply (pack_long_word w after before [x]); [exact Hw|lia|discriminate].
Qed.

Lemma paragraph_block_fits (words : list str) :
  Forall (fits_or_single line_start limit) (paragraph_block line_start limit words).
Proof.
  destruct words as [|w it]; simpl; [constructor|].
  apply pack_fits; [discriminate| |right; eauto].
  unfold render_line; simpl; rewrite len_app; reflexivity.
Qed.

Lemma paragraph_block_concat (words : list str) :
  List.concat (paragraph_block line_start limit words) = words.
Proof. destruct words as [|w it]; simpl; [reflexivity|apply pack_concat]. Qed.

Lemma paragraph_block_nonempty (words : list str) :
  Forall (fun g => g <> []) (paragraph_block line_start limit words).
Proof.
  destruct words as [|w it]; simpl; [constructor|].
  apply pack_groups_nonempty; discriminate.
Qed.

End PackingBounds.

(** Stripping the prefix of every output line and joining what is left
    with single spaces gives the words joined with single spaces. *)
Lemma strip_prefix_render (line_start : str) (g : list str) :
  skipn (List.length line_start) (render_line line_start g)
  = Py.join (lit " ") g.
Proof.
  unfold render_line.
  rewrite skipn_app, Nat.sub_diag, skipn_all; reflexivity.
Qed.

Lemma join_app (sep : str) (a b : list str) :
  a <> [] -> b <> [] ->
  Py.join sep (a ++ b) = Py.join sep a ++ sep ++ Py.join sep b.
Proof.
  intros Ha Hb; induction a as [|x a IH]; [congruence|].
  destruct a as [|y a].
  - simpl app; apply join_cons; exact Hb.
  - change ((x :: y :: a) ++ b) with (x :: (y :: a) ++ b).
    rewrite !join_cons by discriminate.
    rewrite IH by discriminate.
    rewrite <- !app_assoc; reflexivity.
Qed.

Lemma join_concat (sep : str) (block : list (list str)) :
  Forall (fun g => g <> []) block ->
  Py.join sep (map (Py.join sep) block) = Py.join sep (List.concat block).
Proof.
  induction 1 as [|g block Hg Hb IH]; [reflexivity|].
  destruct block as [|g' block].
  - simpl; rewrite app_nil_r; reflexivity.
  - rewrite map_cons, join_cons by discriminate.
    rewrite IH. cbn [List.concat].
    inversion Hb as [|? ? Hg' _]; subst.
    rewrite (join_app sep g (g' ++ List.concat block)); [reflexivity|exact Hg|].
    destruct g'; [congruence|discriminate].
Qed.

(** ** The handlers *)

Section HandlerProperties.

Context {St : Type} (host : Host St).

Lemma issue_app (cs cs' : list call) (w : world St) :
  issue host cs' (issue host cs w) = issue host (cs ++ cs') w.
Proof.
  unfold issue; simpl; rewrite fold_left_app, app_assoc; reflexivity.
Qed.

Lemma command_issue (c : call) (w : world St) :
  command host c w = (Ok tt, issue host [c] w).
Proof. reflexivity. Qed.

Lemma wrap_from_limit_accepted (type : str) (line_num : Z) (line : str)
    (limit : Z) (str_start : str) (w : world St) :
  limit < len (Py.rstrip line) ->
  2 <= len (marker_dropped line str_start) ->
  wrap_from_limit host type line_num line limit str_start w
  = (Ok tt,
     issue host (wrap_commands type line_num (wrap_line_start line str_start)
              (wrap_block line limit str_start) (wrap_words line str_start))
       w).
Proof.
  intros Hlen Htok. unfold wrap_from_limit.
  replace (len (Py.rstrip line) <=? limit) with false
    by (symmetry; apply Z.leb_gt; exact Hlen).
  destruct (build_new_words_accepted line limit str_start Htok)
    as (nw & Hb & Hj & Hl).
  unfold bind, lift, ret. rewrite Hb, !command_issue, Hj, !command_issue.
  rewrite Hl. unfold wrap_commands, caret_fix.
  destruct (Py.str_eqb type (lit "docstring")); simpl andb.
  - destruct (Py.endswith _ triple_quote).
    + rewrite !command_issue, !issue_app; reflexivity.
    + rewrite !issue_app; reflexivity.
  - rewrite !issue_app; reflexivity.
Qed.

Lemma wrap_from_limit_rejected (type : str) (line_num : Z) (line : str)
    (limit : Z) (str_start : str) (w : world St) :
  len (Py.rstrip line) <= limit \/ len (marker_dropped line str_start) <= 1 ->
  exists r, wrap_from_limit host type line_num line limit str_start w = (r, w).
Proof.
  intros H. unfold wrap_from_limit.
  destruct (len (Py.rstrip line) <=? limit) eqn:E; [eexists; reflexivity|].
  destruct H as [H|H]; [apply Z.leb_gt in E; lia|].
  unfold bind, lift, ret.
  rewrite (build_new_words_rejected line limit str_start H).
  destruct (Py.split line); eexists; reflexivity.
Qed.

Lemma wrap_accepted_run (l_map : lang) (ch : Z) (type : str) (w : world St)
    (limit : Z) (str_start : str) :
  wrap_params l_map type = Some (limit, str_start) ->
  wrap_accepts host l_map ch type w = true ->
  _on_CHARADDED_wrap host l_map ch type w
  = (Ok tt,
     issue host (wrap_commands type (cur_line_num host w)
              (wrap_line_start (cur_line host w) str_start)
              (wrap_block (cur_line host w) limit str_start)
              (wrap_words (cur_line host w) str_start))
       w).
Proof.
  intros Hp Ha. unfold wrap_accepts in Ha. rewrite Hp in Ha.
  apply andb_prop in Ha as [Ha Htok].
  apply andb_prop in Ha as [Ha Hlen].
  apply andb_prop in Ha as [Hcaret Hctx].
  apply Z.leb_le in Htok. apply Z.ltb_lt in Hlen.
  unfold caret_ok in Hcaret. unfold context_ok in Hctx.
  unfold wrap_params in Hp.
  unfold _on_CHARADDED_wrap, bind, query, lift, ret.
  fold (cur_pos host w). fold (cur_line_num host w). fold (cur_line host w).
  rewrite <- negb_orb, Hcaret. cbn [negb].
  destruct (Py.str_eqb type (lit "docstring")).
  - unfold docstring_key.
    destruct (docstring l_map) as [d|]; [|discriminate].
    rewrite Hctx; cbn [negb]. injection Hp as <- <-.
    apply wrap_from_limit_accepted; assumption.
  - destruct (Py.str_eqb type (lit "comment")); [|discriminate].
    rewrite Hctx; cbn [negb]. injection Hp as <- <-.
    apply wrap_from_limit_accepted; assumption.
Qed.

(** Whatever precondition fails, the world is the one the handler found:
    the handler returns, or raises, before its first command. *)
Lemma wrap_rejected_run (l_map : lang) (ch : Z) (type : str) (w : world St) :
  wrap_accepts host l_map ch type w = false ->
  exists r, _on_CHARADDED_wrap host l_map ch type w = (r, w).
Proof.
  intros Ha. unfold wrap_accepts, wrap_params, context_ok in Ha.
  unfold _on_CHARADDED_wrap, bind, query, lift, ret.
  fold (cur_pos host w). fold (cur_line_num host w). fold (cur_line host w).
  rewrite <- negb_orb. fold (caret_ok host ch w).
  destruct (caret_ok host ch w); cbn [negb]; [|eexists; reflexivity].
  destruct (Py.str_eqb type (lit "docstring")).
  - unfold docstring_key.
    destruct (docstring l_map) as [d|]; [|eexists; reflexivity].
    destruct (_ =? style_docstring d); cbn [negb]; [|eexists; reflexivity].
    apply wrap_from_limit_rejected.
    cbn [andb] in Ha. apply andb_false_iff in Ha as [Ha|Ha].
    + left; apply Z.ltb_ge; exact Ha.
    + right; apply Z.leb_gt in Ha; lia.
  - destruct (Py.str_eqb type (lit "comment")); [|eexists; reflexivity].
    destruct (_is_comment _ _); cbn [negb]; [|eexists; reflexivity].
    apply wrap_from_limit_rejected.
    cbn [andb] in Ha. apply andb_false_iff in Ha as [Ha|Ha].
    + left; apply Z.ltb_ge; exact Ha.
    + right; apply Z.leb_gt in Ha; lia.
Qed.

End HandlerProperties.

(** ** The continuation inserter *)

Lemma find_marker (s p : str) (c : ascii) (p' : str) :
  p = c :: p' ->
  Py.isspace c = false ->
  Py.startswith (Py.lstrip s) p = true ->
  Py.find s p = Some (List.length (leading_space s)).
Proof.
  intros -> Hc. induction s as [|a s IH]; [discriminate|].
  cbn [Py.lstrip leading_space].
  destruct (Py.isspace a) eqn:Ea.
  - intros H. cbn [Py.find Py.startswith].
    replace (Ascii.eqb c a) with false
      by (symmetry; apply Ascii.eqb_neq; congruence).
    cbn [andb]. rewrite (IH H); reflexivity.
  - intros H. cbn [Py.find]. rewrite H; reflexivity.
Qed.

Section ContinuationProperties.

Context {St : Type} (host : Host St).

Lemma is_comment_startswith (marker line : str) :
  _is_comment marker line = Py.startswith (Py.lstrip line) marker.
Proof. unfold _is_comment; destruct (Py.startswith _ _); reflexivity. Qed.

Lemma continuation_run (l_map : lang) (w : world St) :
  _on_RETURN_insert_comment host l_map w
  = if continues host l_map w
    then match Py.find (prev_line host w) (comment_str l_map) with
         | Some i =>
             (Ok tt,
              issue host
                [ReplaceLine (cur_line_num host w)
                   (firstn i (prev_line host w) ++ comment_str l_map ++ lit " "
                    ++ trailing_string host w);
                 LineEnd] w)
         | None => (Raise ValueError, w)
         end
    else (Ok tt, w).
Proof.
  unfold _on_RETURN_insert_comment, get_lines, bind, query, lift, ret.
  cbn [editor].
  fold (cur_pos host w). fold (cur_line_num host w). fold (cur_line host w).
  fold (prev_line host w). fold (prev_prev_line host w). fold (trailing_string host w).
  unfold continues.
  destruct (_is_comment (comment_str l_map) (prev_line host w)); cbn [negb andb].
  - destruct (_is_comment _ (prev_prev_line host w) || truthy (trailing_string host w));
      cbn [negb orb]; [|reflexivity].
    unfold str_index.
    destruct (Py.find (prev_line host w) (comment_str l_map)); [|reflexivity].
    rewrite command_issue, command_issue, issue_app; reflexivity.
  - rewrite orb_true_r; reflexivity.
Qed.

Lemma continues_find (l_map : lang) (w : world St) :
  continues host l_map w = true ->
  exists i, Py.find (prev_line host w) (comment_str l_map) = Some i.
Proof.
  unfold continues; intros H; apply andb_prop in H as [H _].
  rewrite is_comment_startswith in H.
  apply find_startswith_lstrip; exact H.
Qed.

End ContinuationProperties.

(** ** The dispatcher *)

Section DispatcherProperties.

Context {St : Type} (host : Host St).

Lemma has_key_lang_map (ext : str) :
  has_key _lang_map ext = true -> ext = lit ".py" \/ ext = lit ".c".
Proof.
  unfold has_key, _lang_map; cbn [existsb fst].
  rewrite orb_false_r. intros H; apply orb_prop in H as [H|H];
    apply str_eqb_eq in H; auto.
Qed.

End DispatcherProperties.

(** * The claims *)

Lemma concat_head (b : list (list str)) (a : str) (rest : list str) :
  Forall (fun g => g <> []) b ->
  List.concat b = a :: rest ->
  exists g b', b = (a :: g) :: b'.
Proof.
  intros Hne Hc. destruct b as [|g b]; [discriminate|].
  inversion Hne as [|? ? Hg _]; subst.
  destruct g as [|x g]; [congruence|].
  simpl in Hc; injection Hc as -> _; eauto.
Qed.

Section Claims.

Context {St : Type} (host : Host St).

(** C1. For a line the re-wrapper accepts, the text it writes is a
    sequence of output lines, each the line prefix followed by words with
    single spaces between them; stripping the prefix of every output line
    and joining the lines with single spaces gives back the token sequence
    of the line (after the marker steps): the words of the output lines,
    in order, are exactly the tokens, none lost, duplicated or
    reordered. *)
Theorem wrap_keeps_token_sequence
    (l_map : lang) (ch : Z) (type : str) (w : world St)
    (limit : Z) (str_start : str) :
  wrap_params l_map type = Some (limit, str_start) ->
  wrap_accepts host l_map ch type w = true ->
  let line_start := wrap_line_start (cur_line host w) str_start in
  let words := wrap_words (cur_line host w) str_start in
  exists block : list (list str),
    _on_CHARADDED_wrap host l_map ch type w
    = (Ok tt,
       issue host
         (wrap_commands type (cur_line_num host w) line_start block words) w)
    /\ Forall (fun g => g <> []) block
    /\ List.concat block = words
    /\ Py.join (lit " ")
         (map (skipn (List.length line_start))
            (map (render_line line_start) block))
       = Py.join (lit " ") words.
Proof.
  intros Hp Ha line_start words.
  exists (wrap_block (cur_line host w) limit str_start).
  split; [exact (wrap_accepted_run host l_map ch type w limit str_start Hp Ha)|].
  pose proof (paragraph_block_nonempty line_start limit words) as Hne.
  pose proof (paragraph_block_concat line_start limit words) as Hc.
  split; [exact Hne|]. split; [exact Hc|].
  rewrite map_map.
  rewrite (map_ext _ (Py.join (lit " ")) (strip_prefix_render line_start)).
  rewrite join_concat by exact Hne.
  unfold wrap_block; fold line_start; fold words; rewrite Hc; reflexivity.
Qed.

(** C2. For a line the re-wrapper accepts, every output line (prefix and
    words) is at most [limit] characters long, except an output line that
    carries a single word. *)
Theorem wrap_lines_within_limit
    (l_map : lang) (ch : Z) (type : str) (w : world St)
    (limit : Z) (str_start : str) :
  wrap_params l_map type = Some (limit, str_start) ->
  wrap_accepts host l_map ch type w = true ->
  let line_start := wrap_line_start (cur_line host w) str_start in
  let words := wrap_words (cur_line host w) str_start in
  exists block : list (list str),
    _on_CHARADDED_wrap host l_map ch type w
    = (Ok tt,
       issue host
         (wrap_commands type (cur_line_num host w) line_start block words) w)
    /\ List.concat block = words
    /\ Forall (fun g => len (render_line line_start g) <= limit
                        \/ exists word, g = [word]) block.
Proof.
  intros Hp Ha line_start words.
  exists (wrap_block (cur_line host w) limit str_start).
  split; [exact (wrap_accepted_run host l_map ch type w limit str_start Hp Ha)|].
  split; [apply paragraph_block_concat|].
  apply (paragraph_block_fits line_start limit words).
Qed.

(** C3. For a line the re-wrapper accepts, a word longer than [limit]
    stands alone on its output line, unchanged: the words before it fill
    the output lines before, and the word after it opens the next output
    line. *)
Theorem wrap_long_word_alone
    (l_map : lang) (ch : Z) (type : str) (w : world St)
    (limit : Z) (str_start : str) (before after : list str) (word : str) :
  wrap_params l_map type = Some (limit, str_start) ->
  wrap_accepts host l_map ch type w = true ->
  wrap_words (cur_line host w) str_start = before ++ word :: after ->
  limit < len word ->
  let line_start := wrap_line_start (cur_line host w) str_start in
  exists b1 b2 : list (list str),
    _on_CHARADDED_wrap host l_map ch type w
    = (Ok tt,
       issue host
         (wrap_commands type (cur_line_num host w) line_start
            (b1 ++ [word] :: b2) (before ++ word :: after)) w)
    /\ List.concat b1 = before
    /\ List.concat b2 = after
    /\ match after with
       | [] => b2 = []
       | next :: _ => exists g b2', b2 = (next :: g) :: b2'
       end.
Proof.
  intros Hp Ha Hw Hlong line_start.
  destruct (paragraph_block_long_word line_start limit word before after Hlong)
    as (b1 & b2 & Hb & Hc1 & Hc2 & Hn1 & Hn2).
  exists b1, b2.
  split.
  - rewrite (wrap_accepted_run host l_map ch type w limit str_start Hp Ha).
    unfold wrap_block; fold line_start; rewrite Hw, Hb; reflexivity.
  - split; [exact Hc1|]. split; [exact Hc2|].
    destruct after as [|next after].
    + destruct b2 as [|g b2]; [reflexivity|].
      inversion Hn2 as [|? ? Hg _]; subst.
      destruct g; [congruence|discriminate].
    + exact (concat_head b2 next after Hn2 Hc2).
Qed.

(** C4. A line whose length without its trailing white space is at most
    the limit is left alone: the re-wrapper returns without a command, the
    world is unchanged, and so it is after any number of calls. *)
Theorem short_line_is_noop
    (l_map : lang) (ch : Z) (type : str) (w : world St)
    (limit : Z) (str_start : str) :
  wrap_params l_map type = Some (limit, str_start) ->
  len (Py.rstrip (cur_line host w)) <= limit ->
  _on_CHARADDED_wrap host l_map ch type w = (Ok tt, w)
  /\ forall n, repeated n (_on_CHARADDED_wrap host l_map ch type) w = (Ok tt, w).
Proof.
  intros Hp Hlen.
  assert (_on_CHARADDED_wrap host l_map ch type w = (Ok tt, w)) as Hrun.
  { unfold wrap_params in Hp.
    unfold _on_CHARADDED_wrap, bind, query, lift, ret.
    fold (cur_pos host w). fold (cur_line_num host w). fold (cur_line host w).
    apply Z.leb_le in Hlen.
    destruct (negb _ && negb _); [reflexivity|].
    destruct (Py.str_eqb type (lit "docstring")).
    - unfold docstring_key.
      destruct (docstring l_map) as [d|]; [|discriminate].
      injection Hp as <- <-.
      destruct (negb _); [reflexivity|].
      unfold wrap_from_limit; rewrite Hlen; reflexivity.
    - destruct (Py.str_eqb type (lit "comment")); [|discriminate].
      injection Hp as <- <-.
      destruct (negb _); [reflexivity|].
      unfold wrap_from_limit; rewrite Hlen; reflexivity. }
  split; [exact Hrun|].
  induction n as [|n IH]; simpl; [exact Hrun|].
  unfold bind; rewrite Hrun; exact IH.
Qed.

(** C5. The continuation inserter writes the continued comment prefix on
    the new line exactly when the line above is a comment line and, the
    line two above is a comment line or the new line has content once
    stripped; otherwise it does nothing.  With the line above a comment
    and "foo" carried over to the new line, the new line is replaced by
    the indentation of the line above, the marker, a space and "foo". *)
Theorem continuation_decision (l_map : lang) (w : world St) :
  let marker := comment_str l_map in
  let decision :=
    _is_comment marker (prev_line host w)
    && (_is_comment marker (prev_prev_line host w)
        || truthy (Py.strip (cur_line host w))) in
  (decision = true ->
   exists i,
     Py.find (prev_line host w) marker = Some i /\
     _on_RETURN_insert_comment host l_map w
     = (Ok tt,
        issue host
          [ReplaceLine (cur_line_num host w)
             (firstn i (prev_line host w) ++ marker ++ lit " "
              ++ Py.strip (cur_line host w));
           LineEnd] w))
  /\ (decision = false ->
      _on_RETURN_insert_comment host l_map w = (Ok tt, w))
  /\ (forall c rest,
        marker = c :: rest -> Py.isspace c = false ->
        _is_comment marker (prev_line host w) = true ->
        Py.strip (cur_line host w) = lit "foo" ->
        _on_RETURN_insert_comment host l_map w
        = (Ok tt,
           issue host
             [ReplaceLine (cur_line_num host w)
                (leading_space (prev_line host w) ++ marker ++ lit " foo");
              LineEnd] w)).
Proof.
  intros marker decision.
  assert (decision = continues host l_map w) as Hd by reflexivity.
  split; [|split].
  - intros H. rewrite Hd in H.
    destruct (continues_find host l_map w H) as [i Hi].
    exists i; split; [exact Hi|].
    rewrite continuation_run, H. fold marker in Hi |- *. rewrite Hi.
    reflexivity.
  - intros H. rewrite Hd in H. rewrite continuation_run, H; reflexivity.
  - intros c rest Hm Hc Hp Hfoo.
    rewrite continuation_run. unfold continues, trailing_string.
    fold marker. rewrite Hp, Hfoo, orb_true_r. cbn [andb].
    rewrite is_comment_startswith in Hp.
    rewrite (find_marker _ _ c rest Hm Hc Hp).
    rewrite firstn_leading_space; reflexivity.
Qed.

(** C6, as the code has it.  When the decision is positive the new line
    is replaced by: the line above up to, and without, its marker; the
    marker; a space; the stripped content of the new line.  The caret is
    then moved to the end of the line. *)
Theorem continuation_line_written (l_map : lang) (w : world St) :
  continues host l_map w = true ->
  exists i,
    Py.find (prev_line host w) (comment_str l_map) = Some i /\
    Py.startswith (skipn i (prev_line host w)) (comment_str l_map) = true /\
    _on_RETURN_insert_comment host l_map w
    = (Ok tt,
       issue host
         [ReplaceLine (cur_line_num host w)
            (firstn i (prev_line host w) ++ comment_str l_map ++ lit " "
             ++ Py.strip (cur_line host w));
          LineEnd] w).
Proof.
  intros H. destruct (continues_find host l_map w H) as [i Hi].
  exists i; split; [exact Hi|]. split.
  - revert i Hi. generalize (prev_line host w) (comment_str l_map).
    intros s p. induction s as [|a s IH]; intros i; cbn [Py.find].
    + destruct (Py.startswith [] p) eqn:E; [|discriminate].
      intros Hi; injection Hi as <-; exact E.
    + destruct (Py.startswith (a :: s) p) eqn:E.
      * intros Hi; injection Hi as <-; exact E.
      * destruct (Py.find s p) as [j|] eqn:Ej; [|discriminate].
        intros Hi; injection Hi as <-. apply (IH j eq_refl).
  - rewrite continuation_run, H, Hi; reflexivity.
Qed.

(** C7. When the lowercased extension of the active file is not a key of
    the registry, the dispatcher returns at once: no command is issued,
    the world is unchanged and no exception is raised, whatever the
    character and the buffer. *)
Theorem unsupported_file_is_noop (args : event) (w : world St) :
  has_key _lang_map (active_extension host w) = false ->
  on_CHARADDED_insert host args w = (Ok tt, w).
Proof.
  intros H. unfold on_CHARADDED_insert, bind, query, ret.
  fold (active_extension host w). rewrite H; reflexivity.
Qed.

(** C8. When a precondition of the re-wrapper fails, or the decision of
    the continuation inserter is negative, the world after the call is the
    world before it: every check comes before the first command. *)
Theorem rejected_call_changes_nothing
    (l_map : lang) (ch : Z) (type : str) (w : world St) :
  (wrap_accepts host l_map ch type w = false ->
   snd (_on_CHARADDED_wrap host l_map ch type w) = w)
  /\ (continues host l_map w = false ->
      snd (_on_RETURN_insert_comment host l_map w) = w).
Proof.
  split; intros H.
  - destruct (wrap_rejected_run host l_map ch type w H) as [r Hr].
    rewrite Hr; reflexivity.
  - rewrite continuation_run, H; reflexivity.
Qed.

(** C9. For a supported file, character 10 alone is routed to the
    continuation inserter; any other character, character 13 among them,
    goes to the re-wrapper: docstring then comment for ".py", comment for
    ".c". *)
Theorem only_line_feed_continues (args : event) (w : world St) :
  has_key _lang_map (active_extension host w) = true ->
  (ch args = 10 ->
   exists l_map,
     getitem _lang_map (active_extension host w) = Ok l_map /\
     on_CHARADDED_insert host args w = _on_RETURN_insert_comment host l_map w)
  /\ (ch args <> 10 ->
      on_CHARADDED_insert host args w
      = if Py.str_eqb (active_extension host w) (lit ".py")
        then bind (_on_CHARADDED_wrap host py_lang (ch args) (lit "docstring"))
               (fun _ => _on_CHARADDED_wrap host py_lang (ch args)
                           (lit "comment")) w
        else _on_CHARADDED_wrap host c_lang (ch args) (lit "comment") w)
  /\ (ch args = 13 ->
      on_CHARADDED_insert host args w
      = if Py.str_eqb (active_extension host w) (lit ".py")
        then bind (_on_CHARADDED_wrap host py_lang 13 (lit "docstring"))
               (fun _ => _on_CHARADDED_wrap host py_lang 13 (lit "comment")) w
        else _on_CHARADDED_wrap host c_lang 13 (lit "comment") w).
Proof.
  intros H.
  assert (on_CHARADDED_insert host args w
          = if ch args =? 10
            then bind (lift (getitem _lang_map (active_extension host w)))
                   (fun l_map => _on_RETURN_insert_comment host l_map) w
            else if Py.str_eqb (active_extension host w) (lit ".py")
            then bind (_on_CHARADDED_wrap host py_lang (ch args)
                         (lit "docstring"))
                   (fun _ => _on_CHARADDED_wrap host py_lang (ch args)
                               (lit "comment")) w
            else if Py.str_eqb (active_extension host w) (lit ".c")
            then _on_CHARADDED_wrap host c_lang (ch args) (lit "comment") w
            else (Ok tt, w)) as Hrun.
  { unfold on_CHARADDED_insert. unfold bind at 1. unfold query.
    fold (active_extension host w). rewrite H. cbn [negb].
    destruct (ch args =? 10); [reflexivity|].
    destruct (Py.str_eqb (active_extension host w) (lit ".py"));
      [reflexivity|].
    destruct (Py.str_eqb (active_extension host w) (lit ".c")); reflexivity. }
  rewrite Hrun. split; [|split].
  - intros E. rewrite E, Z.eqb_refl.
    destruct (has_key_lang_map _ H) as [-> | ->]; eexists;
      (split; [reflexivity|]); reflexivity.
  - intros E. apply Z.eqb_neq in E. rewrite E.
    destruct (has_key_lang_map _ H) as [-> | ->]; reflexivity.
  - intros E. rewrite E. cbn [Z.eqb Pos.eqb].
    destruct (has_key_lang_map _ H) as [-> | ->]; reflexivity.
Qed.

(** C10. In the re-wrapper, once the length test has passed for a limit
    that is not negative, the line has a character that is not white
    space: [split] gives a first word that is not empty, [index] finds its
    first character, at the end of the leading white space, and the list
    of words is not empty at the guard that follows. *)
Theorem long_line_has_a_word (line : str) (limit : Z) :
  0 <= limit ->
  limit < len (Py.rstrip line) ->
  exists c w0 rest,
    Py.split line = (c :: w0) :: rest
    /\ item0 (Py.split line) = Ok (c :: w0)
    /\ item0 (c :: w0) = Ok c
    /\ str_index line [c] = Ok (List.length (leading_space line))
    /\ firstn (List.length (leading_space line)) line = leading_space line
    /\ negb (truthy (Py.split line)) = false
    /\ forall str_start, exists r,
         build_new_words line limit str_start = Ok r.
Proof.
  intros H0 Hlen.
  assert (Py.lstrip line <> []) as Hl.
  { intros E. apply lstrip_nil in E. apply rstrip_nil in E.
    rewrite E in Hlen; unfold len in Hlen; simpl in Hlen; lia. }
  pose proof (split_lstrip line) as Hs.
  destruct (Py.lstrip line) as [|c r] eqn:El; [congruence|].
  destruct Hs as (w0 & rest & Hs).
  exists c, w0, rest. rewrite Hs.
  repeat split; try reflexivity.
  - unfold str_index; rewrite (find_first_nonspace _ _ _ El); reflexivity.
  - apply firstn_leading_space.
  - intros str_start.
    destruct (Z.le_gt_cases (len (marker_dropped line str_start)) 1) as [Hle|Hgt].
    + rewrite (build_new_words_rejected line limit str_start Hle), Hs.
      eexists; reflexivity.
    + destruct (build_new_words_accepted line limit str_start)
        as (nw & Hb & _); [lia|].
      rewrite Hb; eexists; reflexivity.
Qed.

End Claims.

(** * The claims on concrete documents *)

(** The scenario of the long comment: marker "#", limit 10, the letter
    "e" typed at the end of the line. *)
Lemma wrap_keeps_token_sequence_witness :
  wrap_params narrow_lang comment = Some (10, lit "#")
  /\ wrap_accepts Buffer.host narrow_lang 101 comment long_comment = true
  /\ exists block : list (list str),
       _on_CHARADDED_wrap Buffer.host narrow_lang 101 comment long_comment
       = (Ok tt,
          issue Buffer.host
            (wrap_commands comment 0 (lit "    # ") block
               [lit "this"; lit "is"; lit "a"; lit "long"; lit "comment";
                lit "line"])
            long_comment)
       /\ Forall (fun g => g <> []) block
       /\ List.concat block
          = [lit "this"; lit "is"; lit "a"; lit "long"; lit "comment";
             lit "line"]
       /\ Py.join (lit " ")
            (map (skipn 6) (map (render_line (lit "    # ")) block))
          = lit "this is a long comment line".
Proof.
  split; [reflexivity|]. split; [reflexivity|].
  exact (wrap_keeps_token_sequence Buffer.host narrow_lang 101 comment
           long_comment 10 (lit "#") eq_refl eq_refl).
Defined.

Lemma wrap_lines_within_limit_witness :
  wrap_params narrow_lang comment = Some (10, lit "#")
  /\ wrap_accepts Buffer.host narrow_lang 101 comment long_comment = true
  /\ exists block : list (list str),
       _on_CHARADDED_wrap Buffer.host narrow_lang 101 comment long_comment
       = (Ok tt,
          issue Buffer.host
            (wrap_commands comment 0 (lit "    # ") block
               [lit "this"; lit "is"; lit "a"; lit "long"; lit "comment";
                lit "line"])
            long_comment)
       /\ List.concat block
          = [lit "this"; lit "is"; lit "a"; lit "long"; lit "comment";
             lit "line"]
       /\ Forall (fun g => len (render_line (lit "    # ") g) <= 10
                           \/ exists word, g = [word]) block.
Proof.
  split; [reflexivity|]. split; [reflexivity|].
  exact (wrap_lines_within_limit Buffer.host narrow_lang 101 comment
           long_comment 10 (lit "#") eq_refl eq_refl).
Defined.

Lemma wrap_long_word_alone_witness :
  wrap_params narrow_lang comment = Some (10, lit "#")
  /\ wrap_accepts Buffer.host narrow_lang 101 comment long_word_comment = true
  /\ wrap_words (cur_line Buffer.host long_word_comment) (lit "#")
     = [lit "a"] ++ lit "abcdefghijklmnop" :: [lit "b"; lit "c"]
  /\ 10 < len (lit "abcdefghijklmnop")
  /\ exists b1 b2 : list (list str),
       _on_CHARADDED_wrap Buffer.host narrow_lang 101 comment
         long_word_comment
       = (Ok tt,
          issue Buffer.host
            (wrap_commands comment 0 (lit "# ")
               (b1 ++ [lit "abcdefghijklmnop"] :: b2)
               ([lit "a"] ++ lit "abcdefghijklmnop" :: [lit "b"; lit "c"]))
            long_word_comment)
       /\ List.concat b1 = [lit "a"]
       /\ List.concat b2 = [lit "b"; lit "c"]
       /\ exists g b2', b2 = (lit "b" :: g) :: b2'.
Proof.
  split; [reflexivity|]. split; [reflexivity|]. split; [reflexivity|].
  split; [reflexivity|].
  exact (wrap_long_word_alone Buffer.host narrow_lang 101 comment
           long_word_comment 10 (lit "#") [lit "a"] [lit "b"; lit "c"]
           (lit "abcdefghijklmnop") eq_refl eq_refl eq_refl eq_refl).
Defined.

Lemma short_line_is_noop_witness :
  wrap_params py_lang comment = Some (72, lit "#")
  /\ len (Py.rstrip (cur_line Buffer.host short_comment)) <= 72
  /\ _on_CHARADDED_wrap Buffer.host py_lang 101 comment short_comment
     = (Ok tt, short_comment)
  /\ forall n,
       repeated n (_on_CHARADDED_wrap Buffer.host py_lang 101 comment)
         short_comment
       = (Ok tt, short_comment).
Proof.
  split; [reflexivity|].
  split; [vm_compute; discriminate|].
  apply (short_line_is_noop Buffer.host py_lang 101 comment short_comment
           72 (lit "#")); [reflexivity|vm_compute; discriminate].
Defined.

Lemma continuation_line_written_witness :
  continues Buffer.host py_lang after_enter = true
  /\ exists i,
       Py.find (prev_line Buffer.host after_enter) (lit "#") = Some i
       /\ Py.startswith (skipn i (prev_line Buffer.host after_enter))
            (lit "#") = true
       /\ _on_RETURN_insert_comment Buffer.host py_lang after_enter
          = (Ok tt,
             issue Buffer.host
               [ReplaceLine 2
                  (firstn i (prev_line Buffer.host after_enter)
                   ++ lit "#" ++ lit " " ++ lit "foo");
                LineEnd] after_enter).
Proof.
  split; [reflexivity|].
  exact (continuation_line_written Buffer.host py_lang after_enter eq_refl).
Defined.

Lemma unsupported_file_is_noop_witness :
  active_extension Buffer.host markdown = lit ".md"
  /\ has_key _lang_map (lit ".md") = false
  /\ on_CHARADDED_insert Buffer.host {| ch := 32 |} markdown
     = (Ok tt, markdown).
Proof.
  split; [reflexivity|]. split; [reflexivity|].
  exact (unsupported_file_is_noop Buffer.host {| ch := 32 |} markdown eq_refl).
Defined.

Lemma rejected_call_changes_nothing_witness :
  wrap_accepts Buffer.host py_lang 101 comment short_comment = false
  /\ snd (_on_CHARADDED_wrap Buffer.host py_lang 101 comment short_comment)
     = short_comment
  /\ continues Buffer.host py_lang after_code = false
  /\ snd (_on_RETURN_insert_comment Buffer.host py_lang after_code)
     = after_code.
Proof.
  split; [reflexivity|].
  split;
    [exact (proj1 (rejected_call_changes_nothing Buffer.host py_lang 101
                     comment short_comment) eq_refl)|].
  split; [reflexivity|].
  exact (proj2 (rejected_call_changes_nothing Buffer.host py_lang 101
                  comment after_code) eq_refl).
Defined.

Lemma only_line_feed_continues_witness :
  has_key _lang_map (active_extension Buffer.host after_enter) = true
  /\ on_CHARADDED_insert Buffer.host {| ch := 13 |} after_enter
     = bind (_on_CHARADDED_wrap Buffer.host py_lang 13 (lit "docstring"))
         (fun _ => _on_CHARADDED_wrap Buffer.host py_lang 13 comment)
         after_enter.
Proof.
  split; [reflexivity|].
  exact (proj2 (proj2 (only_line_feed_continues Buffer.host {| ch := 13 |}
                         after_enter eq_refl)) eq_refl).
Defined.

Lemma long_line_has_a_word_witness :
  0 <= 10
  /\ 10 < len (Py.rstrip (lit "    # this is a long comment line"))
  /\ exists c w0 rest,
       Py.split (lit "    # this is a long comment line") = (c :: w0) :: rest
       /\ item0 (Py.split (lit "    # this is a long comment line"))
          = Ok (c :: w0)
       /\ item0 (c :: w0) = Ok c
       /\ str_index (lit "    # this is a long comment line") [c] = Ok 4%nat
       /\ firstn 4 (lit "    # this is a long comment line") = lit "    "
       /\ negb (truthy (Py.split (lit "    # this is a long comment line")))
          = false
       /\ forall str_start, exists r,
            build_new_words (lit "    # this is a long comment line") 10
              str_start = Ok r.
Proof.
  split; [discriminate|]. split; [reflexivity|].
  apply (long_line_has_a_word (lit "    # this is a long comment line") 10);
    [discriminate|reflexivity].
Defined.

(** C5 on a document: only the line above is a comment, and "foo" was
    carried to the new line. *)
Lemma continuation_decision_witness :
  _is_comment (lit "#") (prev_line Buffer.host after_enter) = true
  /\ _is_comment (lit "#") (prev_prev_line Buffer.host after_enter) = false
  /\ Py.strip (cur_line Buffer.host after_enter) = lit "foo"
  /\ _on_RETURN_insert_comment Buffer.host py_lang after_enter
     = (Ok tt,
        issue Buffer.host [ReplaceLine 2 (lit "  # foo"); LineEnd]
          after_enter).
Proof.
  split; [reflexivity|]. split; [reflexivity|]. split; [reflexivity|].
  exact (proj2 (proj2 (continuation_decision Buffer.host py_lang after_enter))
           "#"%char [] eq_refl eq_refl eq_refl eq_refl).
Defined.

(** C6 as it is worded: the line written would be the line above up to
    and including its marker, then the marker again.  On the document
    [after_enter] the inserter writes one marker, not two. *)
Lemma continuation_line_has_one_marker :
  continues Buffer.host py_lang after_enter = true
  /\ Py.find (prev_line Buffer.host after_enter) (comment_str py_lang)
     = Some 2%nat
  /\ calls (snd (_on_RETURN_insert_comment Buffer.host py_lang after_enter))
     = [ReplaceLine 2 (lit "  # foo"); LineEnd]
  /\ calls (snd (_on_RETURN_insert_comment Buffer.host py_lang after_enter))
     <> [ReplaceLine 2
           (firstn (2 + List.length (comment_str py_lang))
              (prev_line Buffer.host after_enter)
            ++ comment_str py_lang ++ lit " "
            ++ Py.strip (cur_line Buffer.host after_enter));
         LineEnd].
Proof.
  repeat split; try reflexivity.
  vm_compute; discriminate.
Qed.

(** ** The documents after the call *)

Example long_comment_wrapped :
  let after := snd (_on_CHARADDED_wrap Buffer.host narrow_lang 101 comment
                      long_comment) in
  Buffer.text (editor after)
  = lit "    # this" ++ crlf ++ lit "    # is a" ++ crlf ++ lit "    # long"
    ++ crlf ++ lit "    # comment" ++ crlf ++ lit "    # line"
  /\ Buffer.caret (editor after) = len (Buffer.text (editor after)).
Proof. split; reflexivity. Qed.

Example long_word_wrapped :
  Buffer.text (editor (snd (_on_CHARADDED_wrap Buffer.host narrow_lang 101
                              comment long_word_comment)))
  = lit "# a" ++ crlf ++ lit "# abcdefghijklmnop" ++ crlf ++ lit "# b c".
Proof. reflexivity. Qed.

Example after_enter_continued :
  Buffer.text (editor (snd (on_CHARADDED_insert Buffer.host {| ch := 10 |}
                              after_enter)))
  = lit "x = 1" ++ crlf ++ lit "  # note" ++ crlf ++ lit "  # foo".
Proof. reflexivity. Qed.

Example carriage_return_not_continued :
  on_CHARADDED_insert Buffer.host {| ch := 13 |} after_enter
  = (Ok tt, after_enter).
Proof. reflexivity. Qed.

(** * Further properties of the code *)

(** ** More on strings *)

Lemma startswith_app (p s : str) : Py.startswith (p ++ s) p = true.
Proof.
  induction p as [|x p IH]; simpl; [reflexivity|].
  rewrite Ascii.eqb_refl; exact IH.
Qed.

Lemma startswith_prefix (s p : str) :
  Py.startswith s p = true -> s = p ++ skipn (List.length p) s.
Proof.
  revert s; induction p as [|x p IH]; intros [|y s]; simpl;
    try reflexivity; try discriminate.
  rewrite andb_true_iff, Ascii.eqb_eq.
  intros [-> Hs]; f_equal; apply IH, Hs.
Qed.

Lemma leading_space_isspace (s : str) :
  forallb Py.isspace (leading_space s) = true.
Proof.
  induction s as [|c s IH]; simpl; [reflexivity|].
  destruct (Py.isspace c) eqn:E; simpl; [rewrite E; exact IH|reflexivity].
Qed.

Lemma lstrip_app_space (ws s : str) :
  forallb Py.isspace ws = true -> Py.lstrip (ws ++ s) = Py.lstrip s.
Proof.
  induction ws as [|c ws IH]; simpl; [reflexivity|].
  intros H; apply andb_prop in H as [Hc Hws].
  rewrite Hc; exact (IH Hws).
Qed.

Lemma leading_space_app (ws r : str) (c : ascii) :
  forallb Py.isspace ws = true -> Py.isspace c = false ->
  leading_space (ws ++ c :: r) = ws.
Proof.
  intros Hws Hc; induction ws as [|x ws IH]; simpl.
  - rewrite Hc; reflexivity.
  - simpl in Hws; apply andb_prop in Hws as [Hx Hws].
    rewrite Hx, (IH Hws); reflexivity.
Qed.



Lemma split_cons (c : ascii) (s : str) :
  Py.split (c :: s)
  = if Py.isspace c then Py.split s
    else match s with
         | [] => [[c]]
         | d :: _ =>
             if Py.isspace d then [c] :: Py.split s
             else match Py.split s with
                  | w :: ws => (c :: w) :: ws
                  | [] => [[c]]
                  end
         end.
Proof. reflexivity. Qed.





(** ** The classifier and the continuation inserter *)

Section ReadingProperties.

Context {St : Type} (host : Host St).


(** X2. A line is a comment line exactly when, after its leading white
    space, it goes on with the marker; white space put before a line does
    not change the answer. *)
Theorem is_comment_prefix (marker line : str) :
  (_is_comment marker line = true
   <-> exists rest, line = leading_space line ++ marker ++ rest)
  /\ forall ws, forallb Py.isspace ws = true ->
       _is_comment marker (ws ++ line) = _is_comment marker line.
Proof.
  split.
  - rewrite is_comment_startswith. split.
    + intros H. apply startswith_prefix in H.
      eexists. rewrite <- H. symmetry; apply leading_space_lstrip.
    + intros [rest H].
      pose proof (leading_space_lstrip line) as Hl.
      rewrite H in Hl at 3. apply app_inv_head in Hl.
      rewrite Hl; apply startswith_app.
  - intros ws Hws. rewrite !is_comment_startswith.
    rewrite (lstrip_app_space ws line Hws); reflexivity.
Qed.

(** X3. When [_are_comments] holds of the two lines above, the
    continuation inserter writes the comment prefix, whatever the new line
    holds. *)
Theorem two_comments_continue (l_map : lang) (w : world St) :
  _are_comments (comment_str l_map) [prev_line host w; prev_prev_line host w]
  = true ->
  exists i,
    Py.find (prev_line host w) (comment_str l_map) = Some i /\
    _on_RETURN_insert_comment host l_map w
    = (Ok tt,
       issue host
         [ReplaceLine (cur_line_num host w)
            (firstn i (prev_line host w) ++ comment_str l_map ++ lit " "
             ++ Py.strip (cur_line host w));
          LineEnd] w).
Proof.
  unfold _are_comments; cbn [forallb]. rewrite andb_true_r.
  intros H.
  assert (continues host l_map w = true) as Hc.
  { unfold continues.
    destruct (_is_comment (comment_str l_map) (prev_line host w));
      [|discriminate].
    destruct (_is_comment (comment_str l_map) (prev_prev_line host w));
      [reflexivity|discriminate]. }
  destruct (continues_find host l_map w Hc) as [i Hi].
  exists i; split; [exact Hi|].
  rewrite continuation_run, Hc, Hi; reflexivity.
Qed.

(** X4. The continuation inserter raises nothing: [index] always finds
    the marker when it is called. *)
Theorem continuation_never_raises (l_map : lang) (w : world St) :
  fst (_on_RETURN_insert_comment host l_map w) = Ok tt.
Proof.
  rewrite continuation_run.
  destruct (continues host l_map w) eqn:Hc; [|reflexivity].
  destruct (continues_find host l_map w Hc) as [i Hi].
  rewrite Hi; reflexivity.
Qed.

(** X5. For a marker that does not start with white space, the line the
    continuation inserter writes is a comment line again, with the
    indentation of the line above. *)
Theorem continuation_line_is_comment
    (l_map : lang) (w : world St) (c : ascii) (rest : str) :
  comment_str l_map = c :: rest ->
  Py.isspace c = false ->
  continues host l_map w = true ->
  exists text,
    _on_RETURN_insert_comment host l_map w
    = (Ok tt, issue host [ReplaceLine (cur_line_num host w) text; LineEnd] w)
    /\ _is_comment (comment_str l_map) text = true
    /\ leading_space text = leading_space (prev_line host w).
Proof.
  intros Hm Hc Hcont.
  assert (Py.startswith (Py.lstrip (prev_line host w)) (comment_str l_map)
          = true) as Hp.
  { unfold continues in Hcont. apply andb_prop in Hcont as [H _].
    rewrite is_comment_startswith in H; exact H. }
  pose proof (find_marker _ _ c rest Hm Hc Hp) as Hi.
  pose proof (leading_space_isspace (prev_line host w)) as Hws.
  eexists; split; [|split].
  - rewrite continuation_run, Hcont, Hi, firstn_leading_space; reflexivity.
  - rewrite is_comment_startswith, (lstrip_app_space _ _ Hws).
    rewrite Hm. cbn [app Py.lstrip]. rewrite Hc.
    apply (startswith_app (c :: rest)).
  - rewrite Hm. cbn [app]. apply leading_space_app; assumption.
Qed.

End ReadingProperties.

Lemma two_comments_continue_witness :
  _are_comments (lit "//")
    [prev_line Buffer.host two_comments; prev_prev_line Buffer.host two_comments]
  = true
  /\ exists i,
       Py.find (prev_line Buffer.host two_comments) (lit "//") = Some i /\
       _on_RETURN_insert_comment Buffer.host c_lang two_comments
       = (Ok tt,
          issue Buffer.host
            [ReplaceLine 2
               (firstn i (prev_line Buffer.host two_comments) ++ lit "//"
                ++ lit " " ++ []);
             LineEnd] two_comments).
Proof.
  split; [reflexivity|].
  exact (two_comments_continue Buffer.host c_lang two_comments eq_refl).
Defined.

Lemma continuation_line_is_comment_witness :
  continues Buffer.host py_lang after_enter = true
  /\ exists text,
       _on_RETURN_insert_comment Buffer.host py_lang after_enter
       = (Ok tt,
          issue Buffer.host [ReplaceLine 2 text; LineEnd] after_enter)
       /\ _is_comment (lit "#") text = true
       /\ leading_space text = lit "  ".
Proof.
  split; [reflexivity|].
  exact (continuation_line_is_comment Buffer.host py_lang after_enter
           "#"%char [] eq_refl eq_refl eq_refl).
Defined.

(** ** The re-wrapper *)

Section GreedyBreaks.

Variable line_start : str.
Variable limit : Z.

Lemma pack_head (it : list str) :
  forall (cur : list str) (line_len : Z),
    exists g rest,
      pack (len line_start) limit cur line_len it = (cur ++ g) :: rest.
Proof.
  induction it as [|word it IH]; intros cur ll; cbn [pack].
  - exists [], []; rewrite app_nil_r; reflexivity.
  - destruct (_ >? _).
    + eexists [], _; rewrite app_nil_r; reflexivity.
    + destruct (IH (cur ++ [word]) (ll + len word + 1)) as (g & rest & H).
      rewrite H, <- app_assoc. eauto.
Qed.

Lemma pack_forced (it : list str) :
  forall (cur : list str) (line_len : Z),
    cur <> [] ->
    line_len = len (render_line line_start cur) ->
    forced_breaks line_start limit
      (pack (len line_start) limit cur line_len it).
Proof.
  induction it as [|word it IH]; intros cur ll Hcur Hll; cbn [pack].
  - simpl; auto.
  - destruct (ll + len word + 1 >? limit) eqn:Hgt.
    + cbn [forced_breaks]. split.
      * destruct (pack_head it [word] (len line_start + len word))
          as (g & rest & H).
        rewrite H. cbn [app]. apply Z.gtb_lt in Hgt. lia.
      * apply IH; [discriminate|].
        unfold render_line; simpl; rewrite len_app; reflexivity.
    + pose proof (render_line_snoc line_start cur word Hcur) as Hs.
      apply IH; [destruct cur; discriminate|lia].
Qed.

Lemma paragraph_block_forced (words : list str) :
  forced_breaks line_start limit (paragraph_block line_start limit words).
Proof.
  destruct words as [|w it]; [exact I|].
  apply pack_forced; [discriminate|].
  unfold render_line; simpl; rewrite len_app; reflexivity.
Qed.

End GreedyBreaks.



Section WrapperProperties.

Context {St : Type} (host : Host St).

(** Lines 87-114: the handler returns, or goes on with the limit and the
    marker of the wrapping format. *)
Lemma wrap_handler_cases (l_map : lang) (ch : Z) (type : str) (w : world St)
    (limit : Z) (str_start : str) :
  wrap_params l_map type = Some (limit, str_start) ->
  _on_CHARADDED_wrap host l_map ch type w = (Ok tt, w)
  \/ _on_CHARADDED_wrap host l_map ch type w
     = wrap_from_limit host type (cur_line_num host w) (cur_line host w)
         limit str_start w.
Proof.
  unfold wrap_params. intros Hp.
  unfold _on_CHARADDED_wrap, bind, query, lift, ret.
  fold (cur_pos host w). fold (cur_line_num host w). fold (cur_line host w).
  destruct (negb _ && negb _); [left; reflexivity|].
  destruct (Py.str_eqb type (lit "docstring")).
  - unfold docstring_key.
    destruct (docstring l_map) as [d|]; [|discriminate].
    injection Hp as <- <-.
    destruct (negb _); [left|right]; reflexivity.
  - destruct (Py.str_eqb type (lit "comment")); [|discriminate].
    injection Hp as <- <-.
    destruct (negb _); [left|right]; reflexivity.
Qed.

Lemma long_line_split (line : str) (limit : Z) :
  0 <= limit -> limit < len (Py.rstrip line) -> Py.split line <> [].
Proof.
  intros H0 Hlen Hs.
  pose proof (split_lstrip line) as H.
  destruct (Py.lstrip line) as [|c r] eqn:El.
  - apply lstrip_nil in El. apply rstrip_nil in El.
    rewrite El in Hlen; unfold len in Hlen; simpl in Hlen; lia.
  - destruct H as (r' & ws & H); congruence.
Qed.

Lemma wrap_from_limit_ok (type : str) (line_num : Z) (line : str)
    (limit : Z) (str_start : str) (w : world St) :
  0 <= limit ->
  exists w', wrap_from_limit host type line_num line limit str_start w
             = (Ok tt, w').
Proof.
  intros H0.
  destruct (Z.le_gt_cases (len (Py.rstrip line)) limit) as [Hle|Hgt].
  - exists w. unfold wrap_from_limit.
    apply Z.leb_le in Hle; rewrite Hle; reflexivity.
  - destruct (Z.le_gt_cases (len (marker_dropped line str_start)) 1)
      as [Ht|Ht].
    + exists w. unfold wrap_from_limit.
      replace (len (Py.rstrip line) <=? limit) with false
        by (symmetry; apply Z.leb_gt; lia).
      unfold bind, lift, ret.
      rewrite (build_new_words_rejected line limit str_start Ht).
      pose proof (long_line_split line limit H0 ltac:(lia)) as Hs.
      destruct (Py.split line); [congruence|reflexivity].
    + eexists. apply wrap_from_limit_accepted; lia.
Qed.

(** X6. With a limit that is not negative, the re-wrapper raises
    nothing, whatever the line, the caret and the character. *)
Theorem wrap_never_raises (l_map : lang) (ch : Z) (type : str) (w : world St)
    (limit : Z) (str_start : str) :
  wrap_params l_map type = Some (limit, str_start) ->
  0 <= limit ->
  fst (_on_CHARADDED_wrap host l_map ch type w) = Ok tt.
Proof.
  intros Hp H0.
  destruct (wrap_handler_cases l_map ch type w limit str_start Hp) as [H|H];
    rewrite H; [reflexivity|].
  destruct (wrap_from_limit_ok type (cur_line_num host w) (cur_line host w)
              limit str_start w H0) as [w' Hw].
  rewrite Hw; reflexivity.
Qed.

(** X7. On a line of white space only, the re-wrapper, once past the
    choice of the limit, returns when the limit is not negative and raises
    [IndexError] when it is: [words[0]] is read before the test of the
    empty list. *)
Theorem blank_line_index_error (type : str) (line_num : Z) (line : str)
    (limit : Z) (str_start : str) (w : world St) :
  forallb Py.isspace line = true ->
  wrap_from_limit host type line_num line limit str_start w
  = if limit <? 0 then (Raise IndexError, w) else (Ok tt, w).
Proof.
  intros H. unfold wrap_from_limit.
  pose proof (proj2 (rstrip_nil line) H) as Hr. rewrite Hr.
  change (len []) with 0.
  destruct (limit <? 0) eqn:E.
  - apply Z.ltb_lt in E.
    replace (0 <=? limit) with false by (symmetry; apply Z.leb_gt; lia).
    unfold bind, lift, build_new_words.
    pose proof (split_lstrip line) as Hs.
    rewrite (proj2 (lstrip_nil line) H) in Hs. rewrite Hs. reflexivity.
  - apply Z.ltb_ge in E. apply Z.leb_le in E. rewrite E. reflexivity.
Qed.

(** X8. A format without the docstring keys, asked to wrap a docstring:
    the handler raises [KeyError] once the caret test has passed, before
    any command, and returns otherwise. *)
Theorem docstring_keys_missing (l_map : lang) (ch : Z) (w : world St) :
  docstring l_map = None ->
  _on_CHARADDED_wrap host l_map ch (lit "docstring") w
  = if caret_ok host ch w then (Raise KeyError, w) else (Ok tt, w).
Proof.
  intros H.
  unfold _on_CHARADDED_wrap, bind, query, lift, ret, docstring_key.
  fold (cur_pos host w). fold (cur_line_num host w). fold (cur_line host w).
  rewrite <- negb_orb. fold (caret_ok host ch w).
  destruct (caret_ok host ch w); cbn [negb]; [|reflexivity].
  change (Py.str_eqb (lit "docstring") (lit "docstring")) with true.
  cbv iota. rewrite H. reflexivity.
Qed.

(** X9. Every line break the re-wrapper makes is forced: the first word
    of each output line after the first did not fit, with its space, at
    the end of the output line before. *)
Theorem wrap_breaks_are_forced
    (l_map : lang) (ch : Z) (type : str) (w : world St)
    (limit : Z) (str_start : str) :
  wrap_params l_map type = Some (limit, str_start) ->
  wrap_accepts host l_map ch type w = true ->
  let line_start := wrap_line_start (cur_line host w) str_start in
  let words := wrap_words (cur_line host w) str_start in
  exists block : list (list str),
    _on_CHARADDED_wrap host l_map ch type w
    = (Ok tt,
       issue host
         (wrap_commands type (cur_line_num host w) line_start block words) w)
    /\ List.concat block = words
    /\ forced_breaks line_start limit block.
Proof.
  intros Hp Ha line_start words.
  exists (wrap_block (cur_line host w) limit str_start).
  split; [exact (wrap_accepted_run host l_map ch type w limit str_start Hp Ha)|].
  split; [apply paragraph_block_concat|apply paragraph_block_forced].
Qed.

End WrapperProperties.

(** ** The output lines wrapped again *)


Section StableOutput.

Context {St : Type} (host : Host St).



(** ** The dispatcher *)

Lemma dispatcher_run (args : event) (w : world St) :
  on_CHARADDED_insert host args w
  = if negb (has_key _lang_map (active_extension host w)) then (Ok tt, w)
    else if ch args =? 10
    then bind (lift (getitem _lang_map (active_extension host w)))
           (fun l_map => _on_RETURN_insert_comment host l_map) w
    else if Py.str_eqb (active_extension host w) (lit ".py")
    then bind (_on_CHARADDED_wrap host py_lang (ch args) (lit "docstring"))
           (fun _ => _on_CHARADDED_wrap host py_lang (ch args)
                       (lit "comment")) w
    else if Py.str_eqb (active_extension host w) (lit ".c")
    then _on_CHARADDED_wrap host c_lang (ch args) (lit "comment") w
    else (Ok tt, w).
Proof.
  unfold on_CHARADDED_insert. unfold bind at 1. unfold query.
  fold (active_extension host w).
  destruct (negb _); [reflexivity|].
  destruct (ch args =? 10); [reflexivity|].
  destruct (Py.str_eqb (active_extension host w) (lit ".py")); [reflexivity|].
  destruct (Py.str_eqb (active_extension host w) (lit ".c")); reflexivity.
Qed.

(** X11. The dispatcher raises nothing: for every file, character and
    buffer its result is a plain return. *)
Theorem dispatcher_never_raises (args : event) (w : world St) :
  fst (on_CHARADDED_insert host args w) = Ok tt.
Proof.
  rewrite dispatcher_run.
  destruct (has_key _lang_map (active_extension host w)) eqn:Hk;
    cbn [negb]; [|reflexivity].
  destruct (ch args =? 10).
  - unfold bind, lift.
    destruct (has_key_lang_map _ Hk) as [-> | ->];
      apply continuation_never_raises.
  - destruct (Py.str_eqb (active_extension host w) (lit ".py")).
    + unfold bind.
      pose proof (wrap_never_raises host py_lang (ch args) (lit "docstring")
                    w 72 [] eq_refl ltac:(lia)) as H1.
      destruct (_on_CHARADDED_wrap host py_lang (ch args) (lit "docstring") w)
        as [r w1]. simpl in H1; subst r.
      apply (wrap_never_raises host py_lang (ch args) (lit "comment")
               w1 72 (lit "#") eq_refl); lia.
    + destruct (Py.str_eqb (active_extension host w) (lit ".c"));
        [|reflexivity].
      apply (wrap_never_raises host c_lang (ch args) (lit "comment")
               w 72 (lit "//") eq_refl); lia.
Qed.

(** X12. In a ".py" file, away from the docstring style, the docstring
    pass does nothing and the dispatcher is the comment pass alone. *)
Theorem py_comment_pass_alone (args : event) (w : world St) :
  active_extension host w = lit ".py" ->
  ch args <> 10 ->
  getStyleAt host (editor w) (cur_pos host w) <> 7 ->
  on_CHARADDED_insert host args w
  = _on_CHARADDED_wrap host py_lang (ch args) (lit "comment") w.
Proof.
  intros Hext Hch Hstyle.
  rewrite dispatcher_run, Hext.
  change (has_key _lang_map (lit ".py")) with true.
  change (Py.str_eqb (lit ".py") (lit ".py")) with true. cbn [negb].
  apply Z.eqb_neq in Hch; rewrite Hch.
  assert (_on_CHARADDED_wrap host py_lang (ch args) (lit "docstring") w
          = (Ok tt, w)) as Hd.
  { unfold _on_CHARADDED_wrap at 1. unfold bind, query, lift, ret.
    fold (cur_pos host w).
    destruct (negb _ && negb _); [reflexivity|].
    change (Py.str_eqb (lit "docstring") (lit "docstring")) with true.
    cbv iota. unfold docstring_key; cbn [docstring py_lang style_docstring].
    apply Z.eqb_neq in Hstyle; rewrite Hstyle; reflexivity. }
  unfold bind; rewrite Hd; reflexivity.
Qed.

End StableOutput.

(** ** The console and the script *)

(** X13. [print_debug] and [print_err] write one line: the arguments
    converted and separated by single spaces, then a space and the line
    end; with no argument, the line end alone. *)
Theorem print_line_format {Obj : Type} (py_str : Obj -> str)
    (args : list Obj) (log : list script_call) :
  let text :=
    match args with
    | [] => crlf
    | _ :: _ => Py.join (lit " ") (map py_str args) ++ lit " " ++ crlf
    end in
  print_debug py_str args log = log ++ [ConsoleWrite text]
  /\ print_err py_str args log = log ++ [ConsoleWriteError text].
Proof.
  unfold print_debug, print_err.
  destruct args as [|a args]; [split; reflexivity|].
  rewrite join_snoc by discriminate. split; reflexivity.
Qed.

Lemma registrations_app (l l' : list script_call) :
  registrations (l ++ l') = registrations l ++ registrations l'.
Proof.
  induction l as [|c l IH]; [reflexivity|].
  destruct c; simpl; rewrite IH; reflexivity.
Qed.

Lemma main_step (s : script) :
  let b := match bound s with Some b => negb b | None => true end in
  bound (main s) = Some b
  /\ registrations (asked (main s)) = registrations (asked s) ++ [b].
Proof.
  unfold main, print_debug.
  destruct (match bound s with Some b => negb b | None => true end);
    cbn [bound asked]; rewrite !registrations_app; simpl;
    rewrite app_nil_r; split; reflexivity.
Qed.

(** X14. The script is a toggle.  From the state where [bound] is not
    defined, the first run binds the callback, and the runs that follow
    clear and bind it in turn: the callback is never bound twice in a row,
    and [bound] tells what the editor was last asked. *)
Theorem script_toggles (n : nat) (s : script) :
  bound s = None ->
  bound (runs (S n) s) = Some (Nat.even n)
  /\ registrations (asked (runs (S n) s))
     = registrations (asked s) ++ map Nat.even (seq 0 (S n))
  /\ last (registrations (asked (runs (S n) s))) false = Nat.even n.
Proof.
  intros Hs.
  assert (bound (runs (S n) s) = Some (Nat.even n)
          /\ registrations (asked (runs (S n) s))
             = registrations (asked s) ++ map Nat.even (seq 0 (S n))) as H.
  { induction n as [|n [IHb IHr]].
    - cbn [runs]. destruct (main_step s) as [Hb Hr].
      rewrite Hs in Hb, Hr. split; [exact Hb|exact Hr].
    - change (runs (S (S n)) s) with (main (runs (S n) s)).
      destruct (main_step (runs (S n) s)) as [Hb Hr].
      rewrite IHb in Hb, Hr.
      assert (negb (Nat.even n) = Nat.even (S n)) as He.
      { rewrite Nat.even_succ, <- Nat.negb_even; reflexivity. }
      rewrite He in Hb, Hr. split; [exact Hb|].
      rewrite Hr, IHr, (seq_S (S n) 0), map_app, <- app_assoc.
      reflexivity. }
  destruct H as [Hb Hr]. split; [exact Hb|]. split; [exact Hr|].
  rewrite Hr, (seq_S n 0), map_app, app_assoc. cbn [map Nat.add].
  apply last_last.
Qed.

(** * The further properties on concrete documents *)

Lemma wrap_never_raises_witness :
  wrap_params py_lang comment = Some (72, lit "#")
  /\ 0 <= 72
  /\ fst (_on_CHARADDED_wrap Buffer.host py_lang 101 comment long_comment)
     = Ok tt.
Proof.
  split; [reflexivity|]. split; [discriminate|].
  apply (wrap_never_raises Buffer.host py_lang 101 comment long_comment
           72 (lit "#")); [reflexivity|discriminate].
Defined.

Lemma blank_line_index_error_witness :
  forallb Py.isspace blank_line = true
  /\ wrap_from_limit Buffer.host (lit "docstring") 0 blank_line (-1) []
       long_comment
     = (Raise IndexError, long_comment).
Proof.
  split; [reflexivity|].
  exact (blank_line_index_error Buffer.host (lit "docstring") 0 blank_line
           (-1) [] long_comment eq_refl).
Defined.

Lemma docstring_keys_missing_witness :
  docstring c_lang = None
  /\ _on_CHARADDED_wrap Buffer.host c_lang 101 (lit "docstring") two_comments
     = (Raise KeyError, two_comments).
Proof.
  split; [reflexivity|].
  exact (docstring_keys_missing Buffer.host c_lang 101 two_comments eq_refl).
Defined.

Lemma wrap_breaks_are_forced_witness :
  wrap_params narrow_lang comment = Some (10, lit "#")
  /\ wrap_accepts Buffer.host narrow_lang 101 comment long_comment = true
  /\ exists block : list (list str),
       _on_CHARADDED_wrap Buffer.host narrow_lang 101 comment long_comment
       = (Ok tt,
          issue Buffer.host
            (wrap_commands comment 0 (lit "    # ") block
               [lit "this"; lit "is"; lit "a"; lit "long"; lit "comment";
                lit "line"])
            long_comment)
       /\ List.concat block
          = [lit "this"; lit "is"; lit "a"; lit "long"; lit "comment";
             lit "line"]
       /\ forced_breaks (lit "    # ") 10 block.
Proof.
  split; [reflexivity|]. split; [reflexivity|].
  exact (wrap_breaks_are_forced Buffer.host narrow_lang 101 comment
           long_comment 10 (lit "#") eq_refl eq_refl).
Defined.


Lemma py_comment_pass_alone_witness :
  active_extension Buffer.host long_comment = lit ".py"
  /\ 101 <> 10
  /\ getStyleAt Buffer.host (editor long_comment)
       (cur_pos Buffer.host long_comment) <> 7
  /\ on_CHARADDED_insert Buffer.host {| ch := 101 |} long_comment
     = _on_CHARADDED_wrap Buffer.host py_lang 101 comment long_comment.
Proof.
  split; [reflexivity|]. split; [discriminate|].
  split; [vm_compute; discriminate|].
  apply (py_comment_pass_alone Buffer.host {| ch := 101 |} long_comment);
    [reflexivity|discriminate|vm_compute; discriminate].
Defined.

Lemma script_toggles_witness :
  bound fresh = None
  /\ bound (runs 3 fresh) = Some true
  /\ registrations (asked (runs 3 fresh)) = [true; false; true]
  /\ last (registrations (asked (runs 3 fresh))) false = true.
Proof.
  split; [reflexivity|].
  exact (script_toggles 2 fresh eq_refl).
Defined.

Example first_run_of_the_script :
  asked (main fresh)
  = [ConsoleWrite (lit "Binding on_CHARADDED_insert functions " ++ crlf);
     Callback].
Proof. reflexivity. Qed.

(** ** The characters the re-wrapper keeps *)

Lemma concat_split (s : str) : List.concat (Py.split s) = squeeze s.
Proof.
  induction s as [|c s IH]; [reflexivity|].
  rewrite split_cons. unfold squeeze in *. cbn [filter].
  destruct (Py.isspace c); cbn [negb]; [exact IH|].
  destruct s as [|d s]; [reflexivity|].
  destruct (Py.isspace d) eqn:Ed.
  - cbn [List.concat app]. rewrite IH; reflexivity.
  - rewrite <- IH.
    destruct (Py.split (d :: s)) as [|w ws]; reflexivity.
Qed.

Lemma marker_steps_chars (line str_start : str) :
  exists removed,
    squeeze line = removed ++ List.concat (wrap_words line str_start)
    /\ (removed = [] \/ removed = str_start
        \/ removed = str_start ++ str_start).
Proof.
  rewrite <- concat_split. unfold wrap_words, marker_dropped.
  destruct (Py.split line) as [|t0 ts]; [exists []; auto|].
  destruct (Py.str_eqb t0 str_start) eqn:E0.
  - apply str_eqb_eq in E0; subst t0.
    destruct ts as [|t1 ts].
    + exists str_start; split; [|auto]. simpl; reflexivity.
    + cbn [marker_stripped].
      destruct (truthy str_start && Py.startswith t1 str_start) eqn:E1.
      * apply andb_prop in E1 as [_ E1]. apply startswith_prefix in E1.
        exists (str_start ++ str_start); split; [|auto].
        cbn [List.concat]. rewrite E1 at 1.
        rewrite <- !app_assoc; reflexivity.
      * exists str_start; split; [reflexivity|auto].
  - cbn [marker_stripped].
    destruct (truthy str_start && Py.startswith t0 str_start) eqn:E1.
    + apply andb_prop in E1 as [_ E1]. apply startswith_prefix in E1.
      exists str_start; split; [|auto].
      cbn [List.concat]. rewrite E1 at 1.
      rewrite <- !app_assoc; reflexivity.
    + exists []; split; [reflexivity|auto].
Qed.

Section KeptCharacters.

Context {St : Type} (host : Host St).

(** X15. Apart from white space, the re-wrapper takes nothing from the
    line but the marker: the characters of the line that are not white
    space are the words of the output lines put together, after the marker
    taken once, taken twice, or nothing. *)
Theorem wrap_keeps_characters
    (l_map : lang) (ch : Z) (type : str) (w : world St)
    (limit : Z) (str_start : str) :
  wrap_params l_map type = Some (limit, str_start) ->
  wrap_accepts host l_map ch type w = true ->
  let line_start := wrap_line_start (cur_line host w) str_start in
  let words := wrap_words (cur_line host w) str_start in
  exists (block : list (list str)) (removed : str),
    _on_CHARADDED_wrap host l_map ch type w
    = (Ok tt,
       issue host
         (wrap_commands type (cur_line_num host w) line_start block words) w)
    /\ squeeze (cur_line host w)
       = removed ++ List.concat (List.concat block)
    /\ (removed = [] \/ removed = str_start
        \/ removed = str_start ++ str_start).
Proof.
  intros Hp Ha line_start words.
  destruct (marker_steps_chars (cur_line host w) str_start)
    as (removed & Hsq & Hr).
  exists (wrap_block (cur_line host w) limit str_start), removed.
  split; [exact (wrap_accepted_run host l_map ch type w limit str_start Hp Ha)|].
  split; [|exact Hr].
  unfold wrap_block. rewrite paragraph_block_concat. exact Hsq.
Qed.

(** X16. When the bare marker is followed by a word that starts with
    the marker, the marker is taken from that word too: the words packed
    are the rest of that word and the words after it. *)
Theorem marker_removed_twice
    (l_map : lang) (ch : Z) (type : str) (w : world St)
    (limit : Z) (str_start x : str) (rest : list str) :
  wrap_params l_map type = Some (limit, str_start) ->
  wrap_accepts host l_map ch type w = true ->
  str_start <> [] ->
  Py.split (cur_line host w) = str_start :: (str_start ++ x) :: rest ->
  let line_start := wrap_line_start (cur_line host w) str_start in
  _on_CHARADDED_wrap host l_map ch type w
  = (Ok tt,
     issue host
       (wrap_commands type (cur_line_num host w) line_start
          (paragraph_block line_start limit (x :: rest)) (x :: rest)) w).
Proof.
  intros Hp Ha Hne Hs line_start.
  rewrite (wrap_accepted_run host l_map ch type w limit str_start Hp Ha).
  assert (wrap_words (cur_line host w) str_start = x :: rest) as Hw.
  { unfold wrap_words, marker_dropped. rewrite Hs.
    rewrite (proj2 (str_eqb_eq str_start str_start) eq_refl).
    cbn [marker_stripped]. rewrite startswith_app.
    destruct str_start; [congruence|]. cbn [truthy andb].
    rewrite skipn_app, Nat.sub_diag, skipn_all; reflexivity. }
  unfold wrap_block. fold line_start. rewrite Hw. reflexivity.
Qed.


End KeptCharacters.

Lemma wrap_keeps_characters_witness :
  wrap_params narrow_lang comment = Some (10, lit "#")
  /\ wrap_accepts Buffer.host narrow_lang 101 comment long_comment = true
  /\ exists (block : list (list str)) (removed : str),
       _on_CHARADDED_wrap Buffer.host narrow_lang 101 comment long_comment
       = (Ok tt,
          issue Buffer.host
            (wrap_commands comment 0 (lit "    # ") block
               [lit "this"; lit "is"; lit "a"; lit "long"; lit "comment";
                lit "line"])
            long_comment)
       /\ lit "#thisisalongcommentline"
          = removed ++ List.concat (List.concat block)
       /\ (removed = [] \/ removed = lit "#" \/ removed = lit "#" ++ lit "#").
Proof.
  split; [reflexivity|]. split; [reflexivity|].
  exact (wrap_keeps_characters Buffer.host narrow_lang 101 comment
           long_comment 10 (lit "#") eq_refl eq_refl).
Defined.

Lemma marker_removed_twice_witness :
  wrap_params narrow_lang comment = Some (10, lit "#")
  /\ wrap_accepts Buffer.host narrow_lang 101 comment marked_word_comment
     = true
  /\ Py.split (cur_line Buffer.host marked_word_comment)
     = lit "#" :: (lit "#" ++ lit "todo") :: [lit "fix"; lit "it"; lit "now"]
  /\ _on_CHARADDED_wrap Buffer.host narrow_lang 101 comment
       marked_word_comment
     = (Ok tt,
        issue Buffer.host
          (wrap_commands comment 0 (lit "# ")
             (paragraph_block (lit "# ") 10
                [lit "todo"; lit "fix"; lit "it"; lit "now"])
             [lit "todo"; lit "fix"; lit "it"; lit "now"])
          marked_word_comment).
Proof.
  split; [reflexivity|]. split; [reflexivity|]. split; [reflexivity|].
  apply (marker_removed_twice Buffer.host narrow_lang 101 comment
           marked_word_comment 10 (lit "#") (lit "todo")
           [lit "fix"; lit "it"; lit "now"]);
    [reflexivity|reflexivity|discriminate|reflexivity].
Defined.


Example marked_word_wrapped :
  Buffer.text (editor (snd (_on_CHARADDED_wrap Buffer.host narrow_lang 101
                              comment marked_word_comment)))
  = lit "# todo fix" ++ crlf ++ lit "# it now".
Proof. reflexivity. Qed.
